(** * Skeleton model and ground-frame transform of the freemocap Blender add-on

    A shallow embedding of

    - [freemocap_blender_addon/models/skeleton/keypoint_rigidbody_linkage_chain_abc.py]
      (Keypoint, rigid bodies, Linkage, Chain, KeypointMapping), and
    - [skelly_blender/core/put_skeleton_on_ground/put_skeleton_on_ground.py]
      (estimate_orthonormal_basis, transform_points, put_skeleton_on_ground).

    Python exceptions are values of [exn]; a call that may raise returns a
    [result].  Constructors of [@dataclass] classes run [__post_init__]
    from the generated [__init__]; classes without the decorator do not. *)

From Stdlib Require Import QArith Reals Lra.
From stdpp Require Import gmap strings list.

Local Open Scope string_scope.

(** ** Exceptions and results *)

Inductive exn :=
| AttributeError | ValueError | KeyError | IndexError
| AssertionError | ZeroDivisionError | TypeError.

Inductive result (A : Type) :=
| Ok (a : A)
| Raise (e : exn).
Arguments Ok {A} a.
Arguments Raise {A} e.

#[global] Instance result_ret : MRet result := @Ok.
#[global] Instance result_bind : MBind result := λ A B f m,
  match m with Ok a => f a | Raise e => Raise e end.

(** [for x in l: body x], stopping at the first exception. *)
Fixpoint for_each {A} (l : list A) (body : A → result unit) : result unit :=
  match l with
  | [] => Ok ()
  | x :: l' => body x ;; for_each l' body
  end.

(** What [@dataclass] generates: the fields are stored, then
    [__post_init__] runs; an exception there leaves no object behind. *)
Definition dataclass_init {T} (__post_init__ : T → result unit) (self : T) : result T :=
  __post_init__ self ;; Ok self.

(** A class without [@dataclass] inherits [object.__init__]: nothing runs
    at construction, whatever methods the class declares. *)
Definition object_init {T} (self : T) : result T := Ok self.

(** ** Keypoint (lines 11-19) *)

Module Keypoint.
Record t := Build { name : string }.

#[global] Instance eq_dec : EqDecision t.
Proof. solve_decision. Defined.

(** The [__eq__] a dataclass generates compares the field tuples. *)
Definition eqb (a b : t) : bool := bool_decide (a = b).

(** [k in l] and [any(c == k for c in l)]. *)
Definition mem (k : t) (l : list t) : bool := existsb (λ c, eqb c k) l.
End Keypoint.

(** A constructor argument as Python sees it: a Keypoint instance or
    something else ([isinstance(x, Keypoint)] tells them apart). *)
Inductive pyarg :=
| IsKeypoint (k : Keypoint.t)
| NotKeypoint (repr : string).

Definition isinstance_Keypoint (a : pyarg) : bool :=
  match a with IsKeypoint _ => true | NotKeypoint _ => false end.

(** ** SimpleRigidBodyABC (lines 38-60) *)

Module SimpleRigidBodyABC.
Record t := Build { parent : pyarg; child : pyarg }.

#[global] Instance pyarg_eq_dec : EqDecision pyarg.
Proof. solve_decision. Defined.
#[global] Instance eq_dec : EqDecision t.
Proof. solve_decision. Defined.

Definition root (self : t) : pyarg := parent self.

Definition __post_init__ (self : t) : result unit :=
  if negb (forallb isinstance_Keypoint [parent self; child self]) then
    Raise ValueError
  else if bool_decide (parent self = child self) then
    Raise ValueError
  else Ok ().

Definition new (parent child : pyarg) : result t :=
  dataclass_init __post_init__ (Build parent child).
End SimpleRigidBodyABC.

(** ** CompoundRigidBodyABC (lines 63-106) *)

Module CompoundRigidBodyABC.
Record t := Build {
  parent : Keypoint.t;
  children : list Keypoint.t;
  shared_keypoint : Keypoint.t;
  positive_x_direction : Keypoint.t;
  approximate_positive_y_direction : option Keypoint.t;
  approximate_negative_y_direction : option Keypoint.t }.

#[global] Instance eq_dec : EqDecision t.
Proof. solve_decision. Defined.

Definition root (self : t) : Keypoint.t := parent self.

(** [if self.f and not any(child == self.f for child in self.children)]:
    [None] is falsy, a Keypoint instance is truthy. *)
Definition given_and_missing (f : option Keypoint.t) (l : list Keypoint.t) : bool :=
  match f with
  | Some k => negb (Keypoint.mem k l)
  | None => false
  end.

Definition __post_init__ (self : t) : result unit :=
  if negb (Keypoint.mem (shared_keypoint self) (children self)) then
    Raise ValueError
  else if negb (Keypoint.mem (positive_x_direction self) (children self)) then
    Raise ValueError
  else if given_and_missing (approximate_positive_y_direction self) (children self) then
    Raise ValueError
  else if given_and_missing (approximate_negative_y_direction self) (children self) then
    Raise ValueError
  else if negb (bool_decide (is_Some (approximate_positive_y_direction self)))
          && negb (bool_decide (is_Some (approximate_negative_y_direction self))) then
    Raise ValueError
  else Ok ().

Definition new (parent : Keypoint.t) (children : list Keypoint.t)
    (shared_keypoint positive_x_direction : Keypoint.t)
    (approximate_positive_y_direction approximate_negative_y_direction : option Keypoint.t)
    : result t :=
  dataclass_init __post_init__
    (Build parent children shared_keypoint positive_x_direction
           approximate_positive_y_direction approximate_negative_y_direction).
End CompoundRigidBodyABC.

(** ** The rigid bodies a Linkage can hold

    [RigidBodyABC] (lines 22-35) is itself a dataclass with the single
    field [parent] and no abstract method, so it has instances that are
    neither simple nor compound. *)

Inductive RigidBody :=
| Simple (b : SimpleRigidBodyABC.t)
| Compound (b : CompoundRigidBodyABC.t)
| Plain (parent : Keypoint.t).

#[global] Instance RigidBody_eq_dec : EqDecision RigidBody.
Proof. solve_decision. Defined.

(** The objects the loop variable [body] of [LinkageABC.__post_init__]
    ranges over, and what the field [children] can hold: one rigid body,
    or a list of them as the annotation [[RigidBodyABC]] announces (a
    dataclass does not check its annotations). *)
Inductive pyobject :=
| ObjBody (b : RigidBody)
| ObjList (l : list RigidBody).

(** ** LinkageABC (lines 109-147) *)

Module LinkageABC.
Record t := Build {
  parent : RigidBody;
  children : pyobject;
  linked_keypoints : list Keypoint.t }.

#[global] Instance pyobject_eq_dec : EqDecision pyobject.
Proof. solve_decision. Defined.
#[global] Instance eq_dec : EqDecision t.
Proof. solve_decision. Defined.

(** [keypoint not in [body.parent, body.child]] *)
Definition not_in_simple (keypoint : Keypoint.t) (body : SimpleRigidBodyABC.t) : bool :=
  negb (existsb (λ a, bool_decide (a = IsKeypoint keypoint))
          [SimpleRigidBodyABC.parent body; SimpleRigidBodyABC.child body]).

(** [keypoint not in [body.parent] + body.children] *)
Definition not_in_compound (keypoint : Keypoint.t) (body : CompoundRigidBodyABC.t) : bool :=
  negb (Keypoint.mem keypoint
          ([CompoundRigidBodyABC.parent body] ++ CompoundRigidBodyABC.children body)).

(** The body of the two loops, lines 135-142. *)
Definition check (body : pyobject) (keypoint : Keypoint.t) : result unit :=
  match body with
  | ObjBody (Simple b) =>
      if not_in_simple keypoint b then Raise ValueError else Ok ()
  | ObjBody (Compound b) =>
      if not_in_compound keypoint b then Raise ValueError else Ok ()
  | _ => Raise ValueError
  end.

(** [for body in [self.parent, self.children]: for keypoint in self.linked_keypoints: ...] *)
Definition __post_init__ (self : t) : result unit :=
  for_each [ObjBody (parent self); children self] (λ body,
    for_each (linked_keypoints self) (λ keypoint, check body keypoint)).

Definition new (parent : RigidBody) (children : pyobject)
    (linked_keypoints : list Keypoint.t) : result t :=
  dataclass_init __post_init__ (Build parent children linked_keypoints).
End LinkageABC.

(** A keypoint is a structural member of a body: the membership that lines
    136 and 139 test. *)
Definition structural_member (k : Keypoint.t) (b : RigidBody) : bool :=
  match b with
  | Simple s => negb (LinkageABC.not_in_simple k s)
  | Compound c => negb (LinkageABC.not_in_compound k c)
  | Plain _ => false
  end.

(** ** ChainABC (lines 150-171): declared without [@dataclass] *)

Module ChainABC.
Record t := Build {
  parent : LinkageABC.t;
  children : list LinkageABC.t;
  shared_bodies : list RigidBody }.

(** [any(body == linkage.parent for linkage in self.children)] *)
Definition is_parent_of_some (body : RigidBody) (ls : list LinkageABC.t) : bool :=
  existsb (λ linkage, bool_decide (body = LinkageABC.parent linkage)) ls.

Definition __post_init__ (self : t) : result unit :=
  for_each (shared_bodies self) (λ body,
    if negb (is_parent_of_some body (children self)) then Raise ValueError
    else Ok ()).

(** Line 150 carries no decorator (compare lines 109-110 of LinkageABC),
    so the class has no generated [__init__]: the three attributes are
    set in the body of a subclass (as full_body_skeleton.py does for
    SkeletonABC), an instance is made by [object.__init__], and nothing
    calls [__post_init__].  The arguments of [new] are the attributes the
    subclass sets. *)
Definition new (parent : LinkageABC.t) (children : list LinkageABC.t)
    (shared_bodies : list RigidBody) : result t :=
  object_init (Build parent children shared_bodies).
End ChainABC.

(** ** KeypointMapping (lines 191-211)

    The fields hold dynamically typed values, and [__post_init__] reads
    and writes attributes by name, so the instance is its attribute
    dictionary.  Floats are idealised as rationals. *)

Local Unset Elimination Schemes.
Inductive pyval :=
| PNone
| PFloat (q : Q)
| PStr (s : string)
| PList (l : list pyval)
| PDict (d : list (pyval * pyval)).
Local Set Elimination Schemes.

Module KeypointMapping.
Abbreviation t := (gmap string pyval).

(** [self.a]: the instance dictionary; a missing name is an
    AttributeError (the class body declares only [mapping] and
    [weights]). *)
Definition getattr (self : t) (a : string) : result pyval :=
  match self !! a with
  | Some v => Ok v
  | None => Raise AttributeError
  end.

Definition setattr (self : t) (a : string) (v : pyval) : t := <[a := v]> self.

Definition isinstance_dict (v : pyval) : bool :=
  match v with PDict _ => true | _ => false end.

(** [list(v.keys())] and [list(v.values())]: only a dict has them. *)
Definition keys (v : pyval) : result pyval :=
  match v with PDict d => Ok (PList (d.*1)) | _ => Raise AttributeError end.
Definition values (v : pyval) : result pyval :=
  match v with PDict d => Ok (PList (d.*2)) | _ => Raise AttributeError end.

Definition len (v : pyval) : result nat :=
  match v with
  | PList l => Ok (length l)
  | PDict d => Ok (length d)
  | PStr s => Ok (String.length s)
  | _ => Raise TypeError
  end.

(** [np.sum] of a list of floats. *)
Definition np_sum (v : pyval) : result Q :=
  match v with
  | PList l =>
      foldr (λ x acc, s ← acc;
               match x with PFloat q => Ok (q + s)%Q | _ => Raise TypeError end)
            (Ok 0%Q) l
  | _ => Raise TypeError
  end.

Definition __post_init__ (self : t) : result t :=
  (* lines 200-202 *)
  sk ← getattr self "source_keypoints";
  self ← (if isinstance_dict sk then
            ks ← keys sk;
            let self := setattr self "source_keypoints" ks in
            sk' ← getattr self "source_keypoints";
            vs ← values sk';
            Ok (setattr self "weights" vs)
          else Ok self);
  (* lines 204-205 *)
  w ← getattr self "weights";
  self ← (match w with
          | PNone =>
              sk ← getattr self "source_keypoints";
              n ← len sk;
              if bool_decide (n = 0%nat) then Raise ZeroDivisionError
              else Ok (setattr self "weights"
                         (PList (replicate n (PFloat (1 # Pos.of_nat n)))))
          | _ => Ok self
          end);
  (* lines 207-208 *)
  sk ← getattr self "source_keypoints";
  w ← getattr self "weights";
  n ← len sk;
  m ← len w;
  if negb (bool_decide (n = m)) then Raise ValueError else
  (* lines 210-211 *)
  s ← np_sum w;
  if negb (Qeq_bool s 1) then Raise ValueError else Ok self.

(** The generated [__init__(self, mapping, weights=None)]. *)
Definition new (mapping : pyval) (weights : pyval) : result t :=
  __post_init__ (setattr (setattr ∅ "mapping" mapping) "weights" weights).
End KeypointMapping.

(** ** Numbers of the ground-frame code

    A float64 is idealised as a real number or NaN: arithmetic is exact,
    NaN is absorbing, and [0/0], the square root of a negative number and
    the mean of an empty slice are NaN.  Rounding, overflow and infinities
    are outside the model (a quotient [x/0] with [x <> 0] is collapsed to
    NaN; the code divides only by the norm of the vector it divides). *)

#[global] Instance Req_decision : EqDecision R := Req_dec_T.
#[global] Instance Rle_decision (x y : R) : Decision (x <= y)%R := Rle_dec x y.
#[global] Instance Rlt_decision (x y : R) : Decision (x < y)%R := Rlt_dec x y.

Inductive float64 :=
| NaN
| Fin (r : R).

Definition lift2 (f : R → R → R) (a b : float64) : float64 :=
  match a, b with
  | Fin x, Fin y => Fin (f x y)
  | _, _ => NaN
  end.

Definition fadd := lift2 Rplus.
Definition fsub := lift2 Rminus.
Definition fmul := lift2 Rmult.

Definition fneg (a : float64) : float64 :=
  match a with Fin x => Fin (- x) | NaN => NaN end.

Definition fdiv (a b : float64) : float64 :=
  match a, b with
  | Fin x, Fin y => if decide (y = 0%R) then NaN else Fin (x / y)
  | _, _ => NaN
  end.

Definition fsqrt (a : float64) : float64 :=
  match a with
  | Fin x => if decide (x < 0)%R then NaN else Fin (sqrt x)
  | NaN => NaN
  end.

Definition isnan (a : float64) : bool :=
  match a with NaN => true | Fin _ => false end.

Declare Scope fl_scope.
Delimit Scope fl_scope with fl.
Infix "+" := fadd : fl_scope.
Infix "-" := fsub : fl_scope.
Infix "*" := fmul : fl_scope.
Infix "/" := fdiv : fl_scope.

(** ** Arrays

    A point, and an array of shape [(3,)], is a triple; a 3x3 matrix is
    the triple of its rows; [trajectory_data] of shape (frames, 3) is a
    list of points.  The arguments of [estimate_orthonormal_basis] can
    have any shape, so they are [ndarray]s: a shape and a flat buffer. *)

Definition vec3 : Type := float64 * float64 * float64.
Definition mat3 : Type := vec3 * vec3 * vec3.

Record ndarray := { shape : list nat; data : list float64 }.

Definition array1 (v : vec3) : ndarray :=
  let '(x, y, z) := v in {| shape := [3%nat]; data := [x; y; z] |}.

Definition item (a : ndarray) (i : nat) : float64 := default NaN (data a !! i).

Definition to_vec3 (a : ndarray) : vec3 := (item a 0, item a 1, item a 2).

Definition vmap2 (f : float64 → float64 → float64) (a b : vec3) : vec3 :=
  let '(a0, a1, a2) := a in
  let '(b0, b1, b2) := b in
  (f a0 b0, f a1 b1, f a2 b2).

Definition vadd := vmap2 fadd.
Definition vsub := vmap2 fsub.

Definition vneg (a : vec3) : vec3 :=
  let '(a0, a1, a2) := a in (fneg a0, fneg a1, fneg a2).

(** [v / s] with a scalar [s]. *)
Definition vdiv (a : vec3) (s : float64) : vec3 :=
  let '(a0, a1, a2) := a in (a0 / s, a1 / s, a2 / s)%fl.

(** [np.dot] of two vectors. *)
Definition dot (a b : vec3) : float64 :=
  let '(a0, a1, a2) := a in
  let '(b0, b1, b2) := b in
  (a0 * b0 + a1 * b1 + a2 * b2)%fl.

(** [np.cross] of two 3-vectors. *)
Definition cross (a b : vec3) : vec3 :=
  let '(a0, a1, a2) := a in
  let '(b0, b1, b2) := b in
  (a1 * b2 - a2 * b1, a2 * b0 - a0 * b2, a0 * b1 - a1 * b0)%fl.

(** [np.linalg.norm] of a vector: [sqrt(x.dot(x))]. *)
Definition norm (a : vec3) : float64 := fsqrt (dot a a).

(** [M @ v] *)
Definition matvec (M : mat3) (v : vec3) : vec3 :=
  let '(r0, r1, r2) := M in (dot r0 v, dot r1 v, dot r2 v).

(** [M.T] *)
Definition transpose (M : mat3) : mat3 :=
  let '((a, b, c), (d, e, f), (g, h, i)) := M in
  ((a, d, g), (b, e, h), (c, f, i)).

(** [p @ M] for one row [p]. *)
Definition vecmat (p : vec3) (M : mat3) : vec3 :=
  let '(c0, c1, c2) := transpose M in (dot p c0, dot p c1, dot p c2).

(** [np.linalg.det] of a 3x3 matrix. *)
Definition det (M : mat3) : float64 :=
  let '((a, b, c), (d, e, f), (g, h, i)) := M in
  (a * (e * i - f * h) - b * (d * i - f * g) + c * (d * h - e * g))%fl.

(** [np.nanmean] of a list of numbers: the mean of those that are not NaN,
    NaN when there is none. *)
Definition finite_values (l : list float64) : list R :=
  omap (λ a, match a with Fin x => Some x | NaN => None end) l.

Definition nanmean1 (l : list float64) : float64 :=
  match finite_values l with
  | [] => NaN
  | xs => Fin (foldr Rplus 0%R xs / INR (length xs))
  end.

(** [np.nanmean(points, axis=0)] *)
Definition nanmean (ps : list vec3) : vec3 :=
  (nanmean1 (map (λ p, p.1.1) ps), nanmean1 (map (λ p, p.1.2) ps), nanmean1 (map snd ps)).

(** [np.isclose(a, b, rtol=1e-05, atol=atol)] on numbers: NaN is close to
    nothing. *)
Definition rtol : R := 1e-5%R.

Definition isclose (a b : float64) (atol : R) : bool :=
  match a, b with
  | Fin x, Fin y => bool_decide (Rabs (x - y) <= atol + rtol * Rabs y)%R
  | _, _ => false
  end.

(** [np.allclose] on a number and on a vector. *)
Definition allclose (a b : float64) (atol : R) : bool := isclose a b atol.

Definition allclose3 (a b : vec3) (atol : R) : bool :=
  let '(a0, a1, a2) := a in
  let '(b0, b1, b2) := b in
  isclose a0 b0 atol && isclose a1 b1 atol && isclose a2 b2 atol.

Definition assert_ (b : bool) : result unit :=
  if b then Ok () else Raise AssertionError.

(** ** estimate_orthonormal_basis (lines 91-147) *)

Definition estimate_orthonormal_basis
    (center_reference_point x_forward_reference_point
     y_leftward_reference_point z_upward_reference_point : ndarray)
    : result (vec3 * vec3 * vec3) :=
  if bool_decide (shape center_reference_point ≠ [3%nat])
     || bool_decide (shape x_forward_reference_point ≠ [3%nat])
     || bool_decide (shape y_leftward_reference_point ≠ [3%nat])
     || bool_decide (shape z_upward_reference_point ≠ [3%nat])
  then Raise ValueError
  else
    let x_forward := vsub (to_vec3 x_forward_reference_point) (to_vec3 center_reference_point) in
    let y_left := vsub (to_vec3 y_leftward_reference_point) (to_vec3 center_reference_point) in
    let z_up := vsub (to_vec3 z_upward_reference_point) (to_vec3 center_reference_point) in
    (* Make them orthogonal *)
    let z_hat := cross x_forward y_left in
    let y_hat := cross z_hat x_forward in
    let x_hat := cross y_hat z_hat in
    (* Normalize them *)
    let x_hat := vdiv x_hat (norm x_hat) in
    let y_hat := vdiv y_hat (norm y_hat) in
    let z_hat := vdiv z_hat (norm z_hat) in
    Ok (x_hat, y_hat, z_hat).

(** ** transform_points, translate_points, rotate_points (lines 75-88) *)

Definition translate_points (points : list vec3) (translation_vector : vec3) : list vec3 :=
  map (λ p, vadd p translation_vector) points.

Definition rotate_points (points : list vec3) (rotation_matrix : mat3) : list vec3 :=
  map (λ p, vecmat p (transpose rotation_matrix)) points.

Definition transform_points (points : list vec3) (translation_vector : vec3)
    (rotation_matrix : mat3) : list vec3 :=
  let translated_points := translate_points points translation_vector in
  let rotated_points := rotate_points translated_points rotation_matrix in
  rotated_points.

(** The thirteen assertions of lines 47-59, in order. *)
Definition basis_assertions (x_hat y_hat z_hat : vec3) : result unit :=
  let rotation_matrix : mat3 := (x_hat, y_hat, z_hat) in
  let atol : R := 1e-6%R in
  assert_ (allclose (norm x_hat) (Fin 1) atol) ;;
  assert_ (allclose (norm y_hat) (Fin 1) atol) ;;
  assert_ (allclose (norm z_hat) (Fin 1) atol) ;;
  assert_ (allclose (dot z_hat y_hat) (Fin 0) atol) ;;
  assert_ (allclose (dot z_hat x_hat) (Fin 0) atol) ;;
  assert_ (allclose (dot y_hat x_hat) (Fin 0) atol) ;;
  assert_ (allclose3 (cross x_hat y_hat) z_hat atol) ;;
  assert_ (allclose3 (cross y_hat z_hat) x_hat atol) ;;
  assert_ (allclose3 (cross z_hat x_hat) y_hat atol) ;;
  assert_ (allclose3 (matvec rotation_matrix x_hat) (Fin 1, Fin 0, Fin 0) atol) ;;
  assert_ (allclose3 (matvec rotation_matrix y_hat) (Fin 0, Fin 1, Fin 0) atol) ;;
  assert_ (allclose3 (matvec rotation_matrix z_hat) (Fin 0, Fin 0, Fin 1) atol) ;;
  assert_ (allclose (det rotation_matrix) (Fin 1) atol).

(** ** Trajectories and the object store

    [Trajectory] is imported from
    [skelly_blender.core.skeleton_model.abstract_base_classes.trajectory_abc]
    and used as an object with the attributes [name] and [trajectory_data].
    [KeypointTrajectories] is a dict from keypoint name to a Trajectory
    object: the dict holds references, the objects live in the store.  No
    statement of [put_skeleton_on_ground] writes into an ndarray (every
    numpy call there returns a new array), so arrays are values and the
    Trajectory objects are the mutable part. *)

Module Trajectory.
Record t := Build { name : string; trajectory_data : list vec3 }.

(** [self.trajectory_data = v] *)
Definition set_trajectory_data (self : t) (v : list vec3) : t :=
  Build (name self) v.
End Trajectory.

Definition loc := nat.

Record heap := { next : loc; obj : loc → Trajectory.t }.

Definition store (h : heap) (l : loc) (o : Trajectory.t) : heap :=
  {| next := next h; obj := λ l', if decide (l' = l) then o else obj h l' |}.

Definition alloc (h : heap) (o : Trajectory.t) : heap * loc :=
  ({| next := S (next h); obj := λ l', if decide (l' = next h) then o else obj h l' |},
   next h).

(** [d[key]] *)
Definition getitem (d : gmap string loc) (key : string) : result loc :=
  match d !! key with
  | Some l => Ok l
  | None => Raise KeyError
  end.

(** [a[i, :]] *)
Definition row (a : list vec3) (i : nat) : result vec3 :=
  match a !! i with
  | Some p => Ok p
  | None => Raise IndexError
  end.

(** [copy.deepcopy] of the dict: every Trajectory object it refers to is
    copied once into a newly allocated object (the memo keeps two keys
    that share an object sharing its copy), and the new dict refers to the
    copies under the same keys. *)
Fixpoint copy_objects (ls : list loc) (h : heap) (memo : gmap loc loc)
    : heap * gmap loc loc :=
  match ls with
  | [] => (h, memo)
  | l :: ls' =>
      match memo !! l with
      | Some _ => copy_objects ls' h memo
      | None =>
          let '(h', l') := alloc h (obj h l) in
          copy_objects ls' h' (<[l := l']> memo)
      end
  end.

Definition deepcopy (h : heap) (d : gmap string loc) : heap * gmap string loc :=
  let '(h', memo) := copy_objects (map_to_list d).*2 h ∅ in
  (h', omap (λ l, memo !! l) d).

(** The keys that [BodyKeypoints.X.name.lower()] yields for the five
    members the function names ([BodyKeypoints] is an enumeration imported
    from [skelly_blender.core.skeleton_model.static_definitions]; the
    [name] of a member is its identifier). *)
Module BodyKeypoints.
Definition RIGHT_HEEL : string := "right_heel".
Definition LEFT_HEEL : string := "left_heel".
Definition RIGHT_HALLUX_TIP : string := "right_hallux_tip".
Definition LEFT_HALLUX_TIP : string := "left_hallux_tip".
Definition SKULL_ORIGIN_FORAMEN_MAGNUM : string := "skull_origin_foramen_magnum".
End BodyKeypoints.

(** ** put_skeleton_on_ground (lines 11-72) *)

Section PutSkeletonOnGround.

(** [get_low_velocity_frame] is imported from its own module and not
    modelled: it is a parameter, a function of the four ground-reference
    trajectories that returns a frame index or raises, and writes
    nothing. *)
Variable get_low_velocity_frame : list (string * Trajectory.t) → result nat.

(** Lines 14-38: the four reference points
    (center, x_forward, y_leftward, z_upward). *)
Definition reference_points (h : heap) (keypoint_trajectories : gmap string loc)
    : result (vec3 * vec3 * vec3 * vec3) :=
  rh ← getitem keypoint_trajectories BodyKeypoints.RIGHT_HEEL;
  lh ← getitem keypoint_trajectories BodyKeypoints.LEFT_HEEL;
  rt ← getitem keypoint_trajectories BodyKeypoints.RIGHT_HALLUX_TIP;
  lt ← getitem keypoint_trajectories BodyKeypoints.LEFT_HALLUX_TIP;
  let ground_reference_trajectories :=
    [(BodyKeypoints.RIGHT_HEEL, obj h rh); (BodyKeypoints.LEFT_HEEL, obj h lh);
     (BodyKeypoints.RIGHT_HALLUX_TIP, obj h rt); (BodyKeypoints.LEFT_HALLUX_TIP, obj h lt)] in
  good_frame ← get_low_velocity_frame ground_reference_trajectories;
  p_rh ← row (Trajectory.trajectory_data (obj h rh)) good_frame;
  p_lh ← row (Trajectory.trajectory_data (obj h lh)) good_frame;
  p_rt ← row (Trajectory.trajectory_data (obj h rt)) good_frame;
  p_lt ← row (Trajectory.trajectory_data (obj h lt)) good_frame;
  let center_reference_point := nanmean [p_rh; p_lh; p_rt; p_lt] in
  let x_forward_reference_point := nanmean [p_rt; p_lt] in
  let y_leftward_reference_point := nanmean [p_lt; p_lh] in
  skull ← getitem keypoint_trajectories BodyKeypoints.SKULL_ORIGIN_FORAMEN_MAGNUM;
  z_upward_reference_point ← row (Trajectory.trajectory_data (obj h skull)) good_frame;
  Ok (center_reference_point, x_forward_reference_point,
      y_leftward_reference_point, z_upward_reference_point).

(** Lines 40-44: the basis estimated from the reference points. *)
Definition reference_basis (h : heap) (keypoint_trajectories : gmap string loc)
    : result (vec3 * mat3) :=
  '(center_reference_point, x_forward_reference_point,
    y_leftward_reference_point, z_upward_reference_point) ←
      reference_points h keypoint_trajectories;
  '(x_hat, y_hat, z_hat) ←
      estimate_orthonormal_basis (array1 center_reference_point)
        (array1 x_forward_reference_point) (array1 y_leftward_reference_point)
        (array1 z_upward_reference_point);
  Ok (center_reference_point, (x_hat, y_hat, z_hat)).

(** Lines 66-70: the loop over the keys of the copy.  The right-hand
    side reads the original dict, the target is the copied object. *)
Fixpoint transform_loop (keys : list string)
    (keypoint_trajectories transformed_trajectories : gmap string loc)
    (translation_vector : vec3) (rotation_matrix : mat3) (h : heap)
    : heap * result unit :=
  match keys with
  | [] => (h, Ok ())
  | key :: keys' =>
      match getitem keypoint_trajectories key with
      | Raise e => (h, Raise e)
      | Ok l =>
          let points := Trajectory.trajectory_data (obj h l) in
          let new_data := transform_points points translation_vector rotation_matrix in
          match getitem transformed_trajectories key with
          | Raise e => (h, Raise e)
          | Ok l' =>
              transform_loop keys' keypoint_trajectories transformed_trajectories
                translation_vector rotation_matrix
                (store h l' (Trajectory.set_trajectory_data (obj h l') new_data))
          end
      end
  end.

Definition put_skeleton_on_ground (h : heap) (keypoint_trajectories : gmap string loc)
    : heap * result (gmap string loc) :=
  match
    ('(center_reference_point, (x_hat, y_hat, z_hat)) ←
        reference_basis h keypoint_trajectories;
     basis_assertions x_hat y_hat z_hat ;;
     Ok (center_reference_point, (x_hat, y_hat, z_hat)))
  with
  | Raise e => (h, Raise e)
  | Ok (center_reference_point, rotation_matrix) =>
      let '(h1, transformed_trajectories) := deepcopy h keypoint_trajectories in
      match transform_loop (map_to_list transformed_trajectories).*1
              keypoint_trajectories transformed_trajectories
              (vneg center_reference_point) rotation_matrix h1 with
      | (h2, Raise e) => (h2, Raise e)
      | (h2, Ok _) => (h2, Ok transformed_trajectories)
      end
  end.

End PutSkeletonOnGround.


(** ** Real vectors

    The finite values of the arrays, and the properties of a basis in
    their terms. *)

Definition rvec : Type := R * R * R.

Definition fin3 (v : rvec) : vec3 :=
  let '(a, b, c) := v in (Fin a, Fin b, Fin c).

Definition zero3 : rvec := (0, 0, 0)%R.

Definition rsub (a b : rvec) : rvec :=
  let '(a0, a1, a2) := a in
  let '(b0, b1, b2) := b in
  (a0 - b0, a1 - b1, a2 - b2)%R.

Definition rscale (k : R) (a : rvec) : rvec :=
  let '(a0, a1, a2) := a in (k * a0, k * a1, k * a2)%R.

Definition rdot (a b : rvec) : R :=
  let '(a0, a1, a2) := a in
  let '(b0, b1, b2) := b in
  (a0 * b0 + a1 * b1 + a2 * b2)%R.

Definition rcross (a b : rvec) : rvec :=
  let '(a0, a1, a2) := a in
  let '(b0, b1, b2) := b in
  (a1 * b2 - a2 * b1, a2 * b0 - a0 * b2, a0 * b1 - a1 * b0)%R.

Definition rnorm (a : rvec) : R := sqrt (rdot a a).

(** The matrix with rows [x], [y], [z] applied to [v], and its
    determinant. *)
Definition rmatvec (x y z v : rvec) : rvec := (rdot x v, rdot y v, rdot z v).

Definition rdet (x y z : rvec) : R :=
  let '(a, b, c) := x in
  let '(d, e, f) := y in
  let '(g, h, i) := z in
  (a * (e * i - f * h) - b * (d * i - f * g) + c * (d * h - e * g))%R.

(** [v] is a multiple of [u]. *)
Definition collinear (u v : rvec) : Prop := ∃ t : R, v = rscale t u.

(** The reference points are not degenerate: forward minus center and
    leftward minus center are non-zero and not collinear. *)
Definition non_degenerate (center forward leftward : rvec) : Prop :=
  rsub forward center ≠ zero3
  ∧ rsub leftward center ≠ zero3
  ∧ ¬ collinear (rsub forward center) (rsub leftward center).

Definition close (tol a b : R) : Prop := (Rabs (a - b) <= tol)%R.

Definition close3 (tol : R) (a b : rvec) : Prop :=
  let '(a0, a1, a2) := a in
  let '(b0, b1, b2) := b in
  close tol a0 b0 ∧ close tol a1 b1 ∧ close tol a2 b2.

(** Unit norms, pairwise orthogonality, the right-hand rule, the row
    matrix sending the vectors to the standard basis, and determinant +1,
    each within [tol]. *)
Definition orthonormal_within (tol : R) (x y z : rvec) : Prop :=
  (close tol (rnorm x) 1 ∧ close tol (rnorm y) 1 ∧ close tol (rnorm z) 1)
  ∧ (close tol (rdot z y) 0 ∧ close tol (rdot z x) 0 ∧ close tol (rdot y x) 0)
  ∧ (close3 tol (rcross x y) z ∧ close3 tol (rcross y z) x ∧ close3 tol (rcross z x) y)
  ∧ (close3 tol (rmatvec x y z x) (1, 0, 0)%R
     ∧ close3 tol (rmatvec x y z y) (0, 1, 0)%R
     ∧ close3 tol (rmatvec x y z z) (0, 0, 1)%R)
  ∧ close tol (rdet x y z) 1.

(** The rigid map of the transform on one point. *)
Definition rigid_map (center : vec3) (rotation_matrix : mat3) (point : vec3) : vec3 :=
  vecmat (vsub point center) (transpose rotation_matrix).

(** A point with a missing coordinate. *)
Definition has_nan (p : vec3) : bool :=
  let '(a, b, c) := p in isnan a || isnan b || isnan c.

(** Every key of the dict refers to an allocated object. *)
Definition heap_wf (h : heap) (d : gmap string loc) : Prop :=
  ∀ key l, d !! key = Some l → (l < next h)%nat.

(** What [copy_objects] maintains, from the store [h0] it started in: the
    objects of [h0] are untouched, and the memo sends objects of [h0],
    one to one, to newly allocated objects that hold their copies. *)
Definition copy_inv (h0 h : heap) (memo : gmap loc loc) : Prop :=
  (next h0 ≤ next h)%nat
  ∧ (∀ l, (l < next h0)%nat → obj h l = obj h0 l)
  ∧ (∀ l l', memo !! l = Some l' →
       (next h0 ≤ l')%nat ∧ (l' < next h)%nat ∧ obj h l' = obj h0 l)
  ∧ (∀ l1 l2 l', memo !! l1 = Some l' → memo !! l2 = Some l' → l1 = l2).

(** The point a keypoint has at a frame, if the dict has the key and the
    trajectory has the frame. *)
Definition point_at (h : heap) (d : gmap string loc) (key : string) (frame : nat)
    : option vec3 :=
  l ← d !! key; Trajectory.trajectory_data (obj h l) !! frame.

(** ** More vocabulary for the properties of the ground frame *)



(** The point all of whose coordinates are missing. *)
Definition nan3 : vec3 := (NaN, NaN, NaN).

(** ** GenericTrackedPoints (tracked_points_classes.py, lines 13-36)

    [trajectory_data] is an array of any shape; the tracker source and
    the component type are values of enumerations that the method does
    not look at. *)

Module GenericTrackedPoints.
Section Fields.
Variables TrackerSourceType DataComponentTypes : Type.

Record t := Build {
  trajectory_data : ndarray;
  trajectory_names : list string;
  dimension_names : list string;
  tracker_source : TrackerSourceType;
  component_type : DataComponentTypes }.

(** [shape[i]] of a tuple *)
Definition shape_item (s : list nat) (i : nat) : result nat :=
  match s !! i with
  | Some n => Ok n
  | None => Raise IndexError
  end.

Definition number_of_frames (self : t) : result nat :=
  shape_item (shape (trajectory_data self)) 0.

Definition number_of_trajectories (self : t) : result nat :=
  shape_item (shape (trajectory_data self)) 1.

Definition __post_init__ (self : t) : result unit :=
  if negb (bool_decide (length (shape (trajectory_data self)) = 3%nat)) then
    Raise ValueError
  else
    last ← shape_item (shape (trajectory_data self)) 2;
    if negb (bool_decide (last = 3%nat)) then Raise ValueError
    else
      n ← number_of_trajectories self;
      if negb (bool_decide (n = length (trajectory_names self))) then Raise ValueError
      else Ok ().
End Fields.
Arguments Build {_ _} _ _ _ _ _.
Arguments trajectory_data {_ _} _.
Arguments trajectory_names {_ _} _.
Arguments number_of_frames {_ _} _.
Arguments number_of_trajectories {_ _} _.
Arguments __post_init__ {_ _} _.
End GenericTrackedPoints.

(** ** get_color_and_squish
    (put_rigid_body_meshes_on_empties.py, lines 12-40)

    [a in b] on strings is the substring test.  The two values of the
    enumeration [RightLeft] and the colour that [generate_color] returns
    are parameters. *)

Fixpoint contains (needle hay : string) : bool :=
  String.prefix needle hay
  || match hay with
     | EmptyString => false
     | String _ hay' => contains needle hay'
     end.

Definition DEFAULT_APPENDICULAR_RIGID_BODY_MESH_SQUISH : Q * Q * Q := (8 # 10, 1, 1)%Q.
Definition DEFAULT_AXIAL_RIGID_BODY_MESH_SQUISH : Q * Q * Q := (1, 1, 1)%Q.
Definition DEFAULT_LEFT_SIDE_COLOR : string := "#0033BB".
Definition DEFAULT_RIGHT_SIDE_COLOR : string := "#BB0033".

Section PutRigidBodyMeshesOnEmpties.
Variables RightLeft_RIGHT RightLeft_LEFT : string.
Variable axial_color : string.

Definition get_color_and_squish (segment_name : string) : string * (Q * Q * Q) :=
  let right_color := DEFAULT_RIGHT_SIDE_COLOR in
  let left_color := DEFAULT_LEFT_SIDE_COLOR in
  let axial_squish := DEFAULT_AXIAL_RIGID_BODY_MESH_SQUISH in
  let appendicular_squish := DEFAULT_APPENDICULAR_RIGID_BODY_MESH_SQUISH in
  if contains RightLeft_RIGHT segment_name then (right_color, appendicular_squish)
  else if contains RightLeft_LEFT segment_name then (left_color, appendicular_squish)
  else (axial_color, axial_squish).
End PutRigidBodyMeshesOnEmpties.

(** [a in b] on strings: [b] is some prefix, then [a], then some
    suffix. *)
Definition occurs_in (needle hay : string) : Prop :=
  ∃ before after : string, hay = String.append before (String.append needle after).
(** ** Members of AxialBodyKeypoints used as sample keypoints
    (axial_body_keypoints.py, lines 8-33: a member's Keypoint carries the
    member's name). *)

Module AxialBodyKeypoints.
Definition HEAD_CENTER := Keypoint.Build "HEAD_CENTER".
Definition NECK_C1 := Keypoint.Build "NECK_C1".
Definition NECK_C7 := Keypoint.Build "NECK_C7".
Definition CHEST_CENTER := Keypoint.Build "CHEST_CENTER".
Definition HIPS_CENTER := Keypoint.Build "HIPS_CENTER".
End AxialBodyKeypoints.

(** ** A sample capture of one frame

    The four ground-contact keypoints, the skull reference and one more
    keypoint, each in its own Trajectory object. *)

Module Sample.
Definition keypoint_trajectories : gmap string loc :=
  list_to_map
    [(BodyKeypoints.RIGHT_HEEL, 0%nat); (BodyKeypoints.LEFT_HEEL, 1%nat);
     (BodyKeypoints.RIGHT_HALLUX_TIP, 2%nat); (BodyKeypoints.LEFT_HALLUX_TIP, 3%nat);
     (BodyKeypoints.SKULL_ORIGIN_FORAMEN_MAGNUM, 4%nat); ("nose", 5%nat)].

Definition store (right_heel left_heel right_hallux_tip left_hallux_tip skull : rvec)
    (nose : vec3) : heap :=
  {| next := 6;
     obj := λ l,
       match l with
       | 0%nat => Trajectory.Build BodyKeypoints.RIGHT_HEEL [fin3 right_heel]
       | 1%nat => Trajectory.Build BodyKeypoints.LEFT_HEEL [fin3 left_heel]
       | 2%nat => Trajectory.Build BodyKeypoints.RIGHT_HALLUX_TIP [fin3 right_hallux_tip]
       | 3%nat => Trajectory.Build BodyKeypoints.LEFT_HALLUX_TIP [fin3 left_hallux_tip]
       | 4%nat => Trajectory.Build BodyKeypoints.SKULL_ORIGIN_FORAMEN_MAGNUM [fin3 skull]
       | _ => Trajectory.Build "nose" [nose]
       end |}.

(** Feet around the origin, toes towards +x, left towards +y, the nose
    with a missing coordinate. *)
Definition standing : heap :=
  store (-1, -1, 0)%R (-1, 1, 0)%R (1, -1, 0)%R (1, 1, 0)%R (0, 0, 2)%R
        (NaN, Fin 1, Fin 2).

(** All reference keypoints on one spot. *)
Definition collapsed : heap :=
  store (0, 0, 0)%R (0, 0, 0)%R (0, 0, 0)%R (0, 0, 0)%R (0, 0, 2)%R
        (NaN, Fin 1, Fin 2).

Definition get_low_velocity_frame (_ : list (string * Trajectory.t)) : result nat :=
  Ok 0%nat.
End Sample.

(** ** Proof automation *)

(** Equality of two triples, component by component. *)
Ltac vec_eq := f_equal; [f_equal|]; try ring.

(** * Properties of the skeleton model *)

Section SkeletonModel.

Import AxialBodyKeypoints.

Lemma Keypoint_eq_iff_name (p c : Keypoint.t) :
  p = c ↔ Keypoint.name p = Keypoint.name c.
Proof. destruct p, c; simpl; split; congruence. Qed.

Lemma Keypoint_mem_spec (k : Keypoint.t) (l : list Keypoint.t) :
  Keypoint.mem k l = true ↔ k ∈ l.
Proof.
  unfold Keypoint.mem, Keypoint.eqb. rewrite existsb_exists. split.
  - intros (c & Hin & Hc). apply bool_decide_eq_true in Hc. subst c.
    by apply list_elem_of_In.
  - intros Hin. exists k. split; [by apply list_elem_of_In|].
    by apply bool_decide_eq_true.
Qed.

Lemma for_each_ok {A} (l : list A) (body : A → result unit) :
  for_each l body = Ok () ↔ ∀ x, x ∈ l → body x = Ok ().
Proof.
  induction l as [|a l IH]; simpl.
  - split; [intros _ x Hx; inversion Hx | done].
  - destruct (body a) as [[]|e] eqn:Ha; simpl.
    + rewrite IH. split.
      * intros H x Hx. apply elem_of_cons in Hx as [->|Hx]; auto.
      * intros H x Hx. apply H. by right.
    + split; [done|]. intros H. specialize (H a (list_elem_of_here _ _)).
      congruence.
Qed.

Lemma for_each_raises_only {A} (l : list A) (body : A → result unit) (e : exn) :
  (∀ x, body x = Ok () ∨ body x = Raise e) →
  for_each l body = Ok () ∨ for_each l body = Raise e.
Proof.
  intros Hb. induction l as [|a l IH]; simpl; [by left|].
  destruct (Hb a) as [-> | ->]; simpl; [exact IH | by right].
Qed.

(** *** SimpleRigidBodyABC *)

(** C7. Built from two Keypoint values, a simple rigid body fails to
    construct exactly when parent and child are equal, that is, have the
    same name; otherwise the body with these two keypoints is returned;
    and whatever the arguments, a body that was constructed has two
    Keypoint fields that differ. *)
Theorem C7_simple_rigid_body_rejects_equal_keypoints (p c : Keypoint.t) :
  ((∃ e, SimpleRigidBodyABC.new (IsKeypoint p) (IsKeypoint c) = Raise e)
     ↔ Keypoint.name p = Keypoint.name c)
  ∧ (Keypoint.name p ≠ Keypoint.name c →
       SimpleRigidBodyABC.new (IsKeypoint p) (IsKeypoint c)
       = Ok (SimpleRigidBodyABC.Build (IsKeypoint p) (IsKeypoint c)))
  ∧ (∀ a1 a2 b, SimpleRigidBodyABC.new a1 a2 = Ok b →
       b = SimpleRigidBodyABC.Build a1 a2
       ∧ ∃ k1 k2, a1 = IsKeypoint k1 ∧ a2 = IsKeypoint k2
                  ∧ Keypoint.name k1 ≠ Keypoint.name k2).
Proof.
  unfold SimpleRigidBodyABC.new, dataclass_init, SimpleRigidBodyABC.__post_init__.
  split; [|split].
  - simpl. case_bool_decide as Heq; simpl.
    + split; [|by eexists]. intros _. injection Heq as ->. done.
    + split; [intros [e He]; discriminate|].
      intros Hn. exfalso. apply Heq. f_equal. by apply Keypoint_eq_iff_name.
  - intros Hne. simpl. case_bool_decide as Heq; simpl; [|done].
    injection Heq as ->. done.
  - intros a1 a2 b. simpl.
    destruct a1 as [k1|r1], a2 as [k2|r2]; simpl; try discriminate.
    case_bool_decide as Heq; simpl; [discriminate|].
    intros [= <-]. split; [done|]. exists k1, k2. repeat split.
    rewrite <- Keypoint_eq_iff_name. congruence.
Qed.

Lemma C7_witness :
  SimpleRigidBodyABC.new (IsKeypoint NECK_C7) (IsKeypoint NECK_C1)
  = Ok (SimpleRigidBodyABC.Build (IsKeypoint NECK_C7) (IsKeypoint NECK_C1))
  ∧ ∃ e, SimpleRigidBodyABC.new (IsKeypoint NECK_C1) (IsKeypoint NECK_C1) = Raise e.
Proof.
  split.
  - apply (proj1 (proj2 (C7_simple_rigid_body_rejects_equal_keypoints NECK_C7 NECK_C1))).
    simpl. discriminate.
  - apply (proj1 (C7_simple_rigid_body_rejects_equal_keypoints NECK_C1 NECK_C1)).
    reflexivity.
Defined.

(** *** CompoundRigidBodyABC *)

Lemma given_and_missing_false (f : option Keypoint.t) (l : list Keypoint.t) :
  CompoundRigidBodyABC.given_and_missing f l = false ↔ ∀ k, f = Some k → k ∈ l.
Proof.
  destruct f as [k|]; simpl.
  - rewrite negb_false_iff, Keypoint_mem_spec. split.
    + by intros H k' [= <-].
    + intros H. by apply H.
  - split; [intros _ k; discriminate | done].
Qed.

(** C6. A compound rigid body constructs if and only if the shared
    keypoint and the positive-x keypoint are among the children, at
    least one of the two approximate y directions is given, and each one
    given is among the children; every other construction raises
    ValueError. *)
Theorem C6_compound_rigid_body_membership
    (parent : Keypoint.t) (children : list Keypoint.t)
    (shared_keypoint positive_x_direction : Keypoint.t)
    (approximate_positive_y_direction approximate_negative_y_direction : option Keypoint.t) :
  let construction :=
    CompoundRigidBodyABC.new parent children shared_keypoint positive_x_direction
      approximate_positive_y_direction approximate_negative_y_direction in
  let valid :=
    shared_keypoint ∈ children
    ∧ positive_x_direction ∈ children
    ∧ (is_Some approximate_positive_y_direction ∨ is_Some approximate_negative_y_direction)
    ∧ (∀ k, approximate_positive_y_direction = Some k → k ∈ children)
    ∧ (∀ k, approximate_negative_y_direction = Some k → k ∈ children) in
  (construction
     = Ok (CompoundRigidBodyABC.Build parent children shared_keypoint positive_x_direction
             approximate_positive_y_direction approximate_negative_y_direction)
   ↔ valid)
  ∧ (construction = Raise ValueError ↔ ¬ valid).
Proof.
  intros construction valid. subst construction valid.
  unfold CompoundRigidBodyABC.new, dataclass_init, CompoundRigidBodyABC.__post_init__.
  simpl.
  destruct (Keypoint.mem shared_keypoint children) eqn:Hs; simpl.
  2:{ assert (shared_keypoint ∉ children) as Hn
        by (rewrite <- Keypoint_mem_spec; congruence).
      split; split; try done; tauto. }
  apply Keypoint_mem_spec in Hs.
  destruct (Keypoint.mem positive_x_direction children) eqn:Hx; simpl.
  2:{ assert (positive_x_direction ∉ children) as Hn
        by (rewrite <- Keypoint_mem_spec; congruence).
      split; split; try done; tauto. }
  apply Keypoint_mem_spec in Hx.
  destruct (CompoundRigidBodyABC.given_and_missing approximate_positive_y_direction children)
    eqn:Hp; simpl.
  { assert (¬ ∀ k, approximate_positive_y_direction = Some k → k ∈ children) as Hn
      by (rewrite <- given_and_missing_false; congruence).
    split; split; try done; tauto. }
  pose proof (proj1 (given_and_missing_false _ _) Hp) as Hp'. clear Hp.
  destruct (CompoundRigidBodyABC.given_and_missing approximate_negative_y_direction children)
    eqn:Hm; simpl.
  { assert (¬ ∀ k, approximate_negative_y_direction = Some k → k ∈ children) as Hn
      by (rewrite <- given_and_missing_false; congruence).
    split; split; try done; tauto. }
  pose proof (proj1 (given_and_missing_false _ _) Hm) as Hm'. clear Hm.
  destruct approximate_positive_y_direction as [py|],
           approximate_negative_y_direction as [ny|]; simpl.
  - split; split; try done; [by eauto 10 | intros H; exfalso; apply H; eauto 10].
  - split; split; try done; [by eauto 10 | intros H; exfalso; apply H; eauto 10].
  - split; split; try done; [by eauto 10 | intros H; exfalso; apply H; eauto 10].
  - split; split; try done.
    + intros (_ & _ & [[? [=]]|[? [=]]] & _).
    + intros _ (_ & _ & [[? [=]]|[? [=]]] & _).
Qed.

Lemma C6_witness :
  CompoundRigidBodyABC.new HIPS_CENTER [NECK_C7; CHEST_CENTER] NECK_C7 CHEST_CENTER
    (Some NECK_C7) None
  = Ok (CompoundRigidBodyABC.Build HIPS_CENTER [NECK_C7; CHEST_CENTER] NECK_C7
          CHEST_CENTER (Some NECK_C7) None)
  ∧ CompoundRigidBodyABC.new HIPS_CENTER [NECK_C7; CHEST_CENTER] NECK_C7 CHEST_CENTER
      None None
    = Raise ValueError.
Proof.
  split.
  - apply (proj1 (C6_compound_rigid_body_membership HIPS_CENTER [NECK_C7; CHEST_CENTER]
                    NECK_C7 CHEST_CENTER (Some NECK_C7) None)).
    repeat split.
    + apply list_elem_of_here.
    + apply list_elem_of_further, list_elem_of_here.
    + left. by eexists.
    + intros k [= <-]. apply list_elem_of_here.
    + intros k [=].
  - apply (proj2 (C6_compound_rigid_body_membership HIPS_CENTER [NECK_C7; CHEST_CENTER]
                    NECK_C7 CHEST_CENTER None None)).
    intros (_ & _ & [[k [=]]|[k [=]]] & _).
Defined.

(** *** LinkageABC *)

Lemma LinkageABC_check_outcomes (body : pyobject) (keypoint : Keypoint.t) :
  LinkageABC.check body keypoint = Ok ()
  ∨ LinkageABC.check body keypoint = Raise ValueError.
Proof.
  destruct body as [[b|b|k]|l]; simpl; auto.
  - destruct (LinkageABC.not_in_simple keypoint b); auto.
  - destruct (LinkageABC.not_in_compound keypoint b); auto.
Qed.

(** The check of one rigid body is the membership test of the Linkage
    invariant. *)
Lemma LinkageABC_check_body (b : RigidBody) (keypoint : Keypoint.t) :
  LinkageABC.check (ObjBody b) keypoint = Ok () ↔ structural_member keypoint b = true.
Proof.
  destruct b as [s|c|k]; simpl.
  - destruct (LinkageABC.not_in_simple keypoint s); simpl; split; congruence.
  - destruct (LinkageABC.not_in_compound keypoint c); simpl; split; congruence.
  - split; congruence.
Qed.

(** Given one rigid body as [children], the two loops test what the
    invariant asks for. *)
Lemma LinkageABC_single_child (parent child : RigidBody)
    (linked_keypoints : list Keypoint.t) :
  LinkageABC.new parent (ObjBody child) linked_keypoints
  = Ok (LinkageABC.Build parent (ObjBody child) linked_keypoints)
  ↔ ∀ k, k ∈ linked_keypoints →
      structural_member k parent = true ∧ structural_member k child = true.
Proof.
  unfold LinkageABC.new, dataclass_init, LinkageABC.__post_init__.
  cbn [for_each LinkageABC.parent LinkageABC.children LinkageABC.linked_keypoints].
  pose proof (for_each_ok linked_keypoints (λ k, LinkageABC.check (ObjBody parent) k))
    as Hp.
  pose proof (for_each_ok linked_keypoints (λ k, LinkageABC.check (ObjBody child) k))
    as Hc.
  setoid_rewrite LinkageABC_check_body in Hp.
  setoid_rewrite LinkageABC_check_body in Hc.
  destruct (for_each linked_keypoints (λ k, LinkageABC.check (ObjBody parent) k))
    as [[]|e1].
  - destruct (for_each linked_keypoints (λ k, LinkageABC.check (ObjBody child) k))
      as [[]|e2].
    + split; [|done]. intros _ k Hk. split; [by apply Hp | by apply Hc].
    + split; [done|]. intros H.
      assert (Raise e2 = Ok ()) as Hd by (apply Hc; intros k Hk; by apply H).
      discriminate.
  - split; [done|]. intros H.
    assert (Raise e1 = Ok ()) as Hd by (apply Hp; intros k Hk; by apply H).
    discriminate.
Qed.

(** C4. As written, the outer loop of [LinkageABC.__post_init__] runs
    over the two objects [self.parent] and [self.children]; when
    [children] is the list of child bodies, that second object is no
    rigid body, so with a non-empty [linked_keypoints] every
    construction raises ValueError, also when every linked keypoint is a
    structural member of the parent and of every child. *)
Theorem C4_linkage_with_linked_keypoints_never_constructs
    (parent : RigidBody) (children : list RigidBody) (linked_keypoints : list Keypoint.t) :
  linked_keypoints ≠ [] →
  LinkageABC.new parent (ObjList children) linked_keypoints = Raise ValueError.
Proof.
  intros Hne. unfold LinkageABC.new, dataclass_init, LinkageABC.__post_init__.
  cbn [for_each LinkageABC.parent LinkageABC.children LinkageABC.linked_keypoints].
  destruct (for_each_raises_only linked_keypoints
              (λ keypoint, LinkageABC.check (ObjBody parent) keypoint) ValueError
              (LinkageABC_check_outcomes _)) as [-> | ->]; [|done].
  destruct linked_keypoints as [|k ks]; [done|]. reflexivity.
Qed.

Lemma C4_witness :
  structural_member NECK_C1
    (Simple (SimpleRigidBodyABC.Build (IsKeypoint NECK_C7) (IsKeypoint NECK_C1))) = true
  ∧ structural_member NECK_C1
      (Simple (SimpleRigidBodyABC.Build (IsKeypoint NECK_C1) (IsKeypoint HEAD_CENTER)))
    = true
  ∧ LinkageABC.new
      (Simple (SimpleRigidBodyABC.Build (IsKeypoint NECK_C7) (IsKeypoint NECK_C1)))
      (ObjList [Simple (SimpleRigidBodyABC.Build (IsKeypoint NECK_C1)
                          (IsKeypoint HEAD_CENTER))])
      [NECK_C1]
    = Raise ValueError.
Proof.
  split; [reflexivity|]. split; [reflexivity|].
  apply (C4_linkage_with_linked_keypoints_never_constructs
           (Simple (SimpleRigidBodyABC.Build (IsKeypoint NECK_C7) (IsKeypoint NECK_C1)))
           [Simple (SimpleRigidBodyABC.Build (IsKeypoint NECK_C1) (IsKeypoint HEAD_CENTER))]
           [NECK_C1]).
  discriminate.
Defined.

(** *** ChainABC *)


(** C8. [ChainABC] is declared without [@dataclass], so nothing calls
    its [__post_init__]: every construction succeeds, also one that
    declares a shared body which is the parent of none of the chain's
    linkages, where the method, had it run, raises ValueError. *)
Theorem C8_chain_construction_skips_validation :
  (∀ parent children shared_bodies,
      ChainABC.new parent children shared_bodies
      = Ok (ChainABC.Build parent children shared_bodies))
  ∧ (let cervical_spine :=
       Simple (SimpleRigidBodyABC.Build (IsKeypoint NECK_C7) (IsKeypoint NECK_C1)) in
     let skull :=
       Simple (SimpleRigidBodyABC.Build (IsKeypoint NECK_C1) (IsKeypoint HEAD_CENTER)) in
     let skull_c1 := LinkageABC.Build cervical_spine (ObjList [skull]) [NECK_C1] in
     ChainABC.__post_init__ (ChainABC.Build skull_c1 [] [skull]) = Raise ValueError
     ∧ ChainABC.new skull_c1 [] [skull] = Ok (ChainABC.Build skull_c1 [] [skull])).
Proof. split; [reflexivity|]. split; reflexivity. Qed.

(** *** KeypointMapping *)

Lemma KeypointMapping_no_source_keypoints (mapping weights : pyval) :
  KeypointMapping.getattr
    (KeypointMapping.setattr (KeypointMapping.setattr ∅ "mapping" mapping)
       "weights" weights) "source_keypoints"
  = Raise AttributeError.
Proof.
  unfold KeypointMapping.getattr, KeypointMapping.setattr.
  rewrite lookup_insert_ne by done. rewrite lookup_insert_ne by done.
  by rewrite lookup_empty.
Qed.

(** C5. [KeypointMapping] declares the fields [mapping] and [weights],
    and its [__post_init__] starts by reading [self.source_keypoints]:
    every construction raises AttributeError, among them the one from
    two source points with the weights 0.3 and 0.7. *)
Theorem C5_keypoint_mapping_construction_always_raises :
  (∀ mapping weights, KeypointMapping.new mapping weights = Raise AttributeError)
  ∧ KeypointMapping.new (PList [PStr "left_hip"; PStr "right_hip"])
      (PList [PFloat (3 # 10); PFloat (7 # 10)])
    = Raise AttributeError.
Proof.
  assert (∀ mapping weights, KeypointMapping.new mapping weights = Raise AttributeError) as H.
  { intros mapping weights. unfold KeypointMapping.new, KeypointMapping.__post_init__.
    by rewrite KeypointMapping_no_source_keypoints. }
  split; [exact H | apply H].
Qed.

End SkeletonModel.

(** * Properties of the ground-frame estimator *)

Section RealVectors.

Local Open Scope R_scope.

Implicit Types a b c u v x y z : rvec.

Lemma rdot_self_nonneg a : 0 <= rdot a a.
Proof. destruct a as [[a0 a1] a2]. simpl. nra. Qed.

Lemma rdot_self_zero a : rdot a a = 0 → a = zero3.
Proof.
  destruct a as [[a0 a1] a2]. simpl. intros H. unfold zero3.
  assert (a0 = 0) by nra. assert (a1 = 0) by nra. assert (a2 = 0) by nra.
  by subst.
Qed.

Lemma rdot_self_pos a : a ≠ zero3 → 0 < rdot a a.
Proof.
  intros Hne. destruct (Rle_lt_or_eq_dec _ _ (rdot_self_nonneg a)) as [H|H]; [done|].
  exfalso. apply Hne. by apply rdot_self_zero.
Qed.

Lemma rnorm_pos a : a ≠ zero3 → 0 < rnorm a.
Proof. intros H. apply sqrt_lt_R0. by apply rdot_self_pos. Qed.

Lemma rnorm_sqr a : rnorm a * rnorm a = rdot a a.
Proof. apply sqrt_sqrt, rdot_self_nonneg. Qed.

Lemma rnorm_unit a : rdot a a = 1 → rnorm a = 1.
Proof. intros H. unfold rnorm. rewrite H. apply sqrt_1. Qed.

Lemma rdot_comm a b : rdot a b = rdot b a.
Proof. destruct a as [[??]?], b as [[??]?]. simpl. ring. Qed.

Lemma rdot_scale k1 k2 a b : rdot (rscale k1 a) (rscale k2 b) = k1 * k2 * rdot a b.
Proof. destruct a as [[??]?], b as [[??]?]. simpl. ring. Qed.

Lemma rcross_scale k1 k2 a b :
  rcross (rscale k1 a) (rscale k2 b) = rscale (k1 * k2) (rcross a b).
Proof. destruct a as [[??]?], b as [[??]?]. simpl. vec_eq. Qed.

Lemma rscale_rscale k1 k2 a : rscale k1 (rscale k2 a) = rscale (k1 * k2) a.
Proof. destruct a as [[??]?]. simpl. vec_eq. Qed.


Lemma rscale_zero3 k : rscale k zero3 = zero3.
Proof. unfold zero3. simpl. vec_eq. Qed.

Lemma rnorm_scale k a : 0 <= k → rnorm (rscale k a) = k * rnorm a.
Proof.
  intros Hk. unfold rnorm. rewrite rdot_scale.
  rewrite sqrt_mult; [|nra|apply rdot_self_nonneg].
  by rewrite sqrt_square.
Qed.

(** Lagrange's identity and the orthogonality of a cross product to its
    factors. *)
Lemma rcross_norm_sqr a b :
  rdot (rcross a b) (rcross a b) = rdot a a * rdot b b - rdot a b * rdot a b.
Proof. destruct a as [[??]?], b as [[??]?]. simpl. ring. Qed.

Lemma rdot_cross_l a b : rdot (rcross a b) a = 0.
Proof. destruct a as [[??]?], b as [[??]?]. simpl. ring. Qed.

Lemma rdot_cross_r a b : rdot (rcross a b) b = 0.
Proof. destruct a as [[??]?], b as [[??]?]. simpl. ring. Qed.

(** The two triple products. *)
Lemma rcross_cross_l a b c :
  rcross (rcross a b) c = rsub (rscale (rdot a c) b) (rscale (rdot b c) a).
Proof. destruct a as [[??]?], b as [[??]?], c as [[??]?]. simpl. vec_eq. Qed.

Lemma rcross_cross_r a b c :
  rcross c (rcross a b) = rsub (rscale (rdot c b) a) (rscale (rdot c a) b).
Proof. destruct a as [[??]?], b as [[??]?], c as [[??]?]. simpl. vec_eq. Qed.

Lemma rdet_triple x y z : rdet x y z = rdot x (rcross y z).
Proof. destruct x as [[??]?], y as [[??]?], z as [[??]?]. simpl. ring. Qed.

Lemma rcross_zero_l b : rcross zero3 b = zero3.
Proof. destruct b as [[??]?]. unfold zero3. simpl. vec_eq. Qed.

Lemma rcross_zero_r a : rcross a zero3 = zero3.
Proof. destruct a as [[??]?]. unfold zero3. simpl. vec_eq. Qed.

Lemma rcross_collinear u t : rcross u (rscale t u) = zero3.
Proof. destruct u as [[??]?]. unfold zero3. simpl. vec_eq. Qed.

(** Two vectors with a zero cross product, the first non-zero, are
    collinear. *)
Lemma rcross_zero_collinear u v : u ≠ zero3 → rcross u v = zero3 → collinear u v.
Proof.
  intros Hu Hc. pose proof (rdot_self_pos u Hu) as Hpos.
  exists (rdot u v / rdot u u).
  destruct u as [[u0 u1] u2], v as [[v0 v1] v2].
  unfold zero3 in Hc. simpl in *. injection Hc as H0 H1 H2.
  set (uu := u0 * u0 + u1 * u1 + u2 * u2) in *.
  set (uv := u0 * v0 + u1 * v1 + u2 * v2) in *.
  assert (uu * v0 = uv * u0) as E0.
  { replace (uu * v0)
      with (uv * u0 + (u2 * (u2 * v0 - u0 * v2) - u1 * (u0 * v1 - u1 * v0)))
      by (unfold uu, uv; ring).
    rewrite H1, H2. ring. }
  assert (uu * v1 = uv * u1) as E1.
  { replace (uu * v1)
      with (uv * u1 + (u0 * (u0 * v1 - u1 * v0) - u2 * (u1 * v2 - u2 * v1)))
      by (unfold uu, uv; ring).
    rewrite H0, H2. ring. }
  assert (uu * v2 = uv * u2) as E2.
  { replace (uu * v2)
      with (uv * u2 + (u1 * (u1 * v2 - u2 * v1) - u0 * (u2 * v0 - u0 * v2)))
      by (unfold uu, uv; ring).
    rewrite H0, H1. ring. }
  assert (uu ≠ 0) as Hne by lra.
  vec_eq.
  - apply (Rmult_eq_reg_l uu); [|done]. rewrite E0. field. done.
  - apply (Rmult_eq_reg_l uu); [|done]. rewrite E1. field. done.
  - apply (Rmult_eq_reg_l uu); [|done]. rewrite E2. field. done.
Qed.

Lemma rvec_eq_dec a b : {a = b} + {a ≠ b}.
Proof. solve_decision. Qed.

Lemma non_degenerate_cross c f l :
  non_degenerate c f l ↔ rcross (rsub f c) (rsub l c) ≠ zero3.
Proof.
  unfold non_degenerate. split.
  - intros (Hf & Hl & Hn) Hc. apply Hn. by apply rcross_zero_collinear.
  - intros Hc. repeat split.
    + intros H. apply Hc. rewrite H. apply rcross_zero_l.
    + intros H. apply Hc. rewrite H. apply rcross_zero_r.
    + intros [t Ht]. apply Hc. rewrite Ht. apply rcross_collinear.
Qed.

End RealVectors.

Section Estimator.

Local Open Scope R_scope.

Implicit Types a b c f l u v x y z : rvec.

(** *** The array operations on finite vectors are the real ones *)

Lemma to_vec3_array1 (v : vec3) : to_vec3 (array1 v) = v.
Proof. by destruct v as [[??]?]. Qed.

Lemma shape_array1 (v : vec3) : shape (array1 v) = [3%nat].
Proof. by destruct v as [[??]?]. Qed.

Lemma vsub_fin a b : vsub (fin3 a) (fin3 b) = fin3 (rsub a b).
Proof. by destruct a as [[??]?], b as [[??]?]. Qed.

Lemma cross_fin a b : cross (fin3 a) (fin3 b) = fin3 (rcross a b).
Proof. by destruct a as [[??]?], b as [[??]?]. Qed.

Lemma dot_fin a b : dot (fin3 a) (fin3 b) = Fin (rdot a b).
Proof. by destruct a as [[??]?], b as [[??]?]. Qed.

Lemma norm_fin a : norm (fin3 a) = Fin (rnorm a).
Proof.
  unfold norm. rewrite dot_fin. unfold fsqrt, rnorm.
  case_decide as H; [|done]. pose proof (rdot_self_nonneg a). lra.
Qed.

Lemma matvec_fin x y z v :
  matvec (fin3 x, fin3 y, fin3 z) (fin3 v) = fin3 (rmatvec x y z v).
Proof. unfold matvec, rmatvec. by rewrite !dot_fin. Qed.

Lemma det_fin x y z : det (fin3 x, fin3 y, fin3 z) = Fin (rdet x y z).
Proof. by destruct x as [[??]?], y as [[??]?], z as [[??]?]. Qed.

Lemma vdiv_fin a (n : R) : n ≠ 0 → vdiv (fin3 a) (Fin n) = fin3 (rscale (/ n) a).
Proof.
  intros Hn. destruct a as [[a0 a1] a2]. simpl. unfold fdiv.
  case_decide; [done|]. unfold Rdiv. vec_eq; f_equal; ring.
Qed.

Lemma vdiv_by_zero a : vdiv (fin3 a) (Fin 0) = (NaN, NaN, NaN).
Proof.
  destruct a as [[a0 a1] a2]. simpl. unfold fdiv. by case_decide.
Qed.

(** A norm is zero only for the zero vector: where line 143-145 divide
    by zero, they divide zero. *)
Lemma norm_zero_inv (v : vec3) : norm v = Fin 0 → v = fin3 zero3.
Proof.
  destruct v as [[[|a] [|b]] [|c]]; try discriminate.
  change (Fin a, Fin b, Fin c) with (fin3 (a, b, c)). rewrite norm_fin.
  intros [= H]. f_equal. apply rdot_self_zero.
  apply sqrt_eq_0; [apply rdot_self_nonneg | exact H].
Qed.

(** *** The estimator on finite reference points *)

(** The three cross products of lines 138-140 and the three divisions
    of lines 143-145. *)
Lemma estimate_orthonormal_basis_fin c f l u :
  estimate_orthonormal_basis (array1 (fin3 c)) (array1 (fin3 f))
    (array1 (fin3 l)) (array1 (fin3 u))
  = let z := rcross (rsub f c) (rsub l c) in
    let y := rcross z (rsub f c) in
    let x := rcross y z in
    Ok (vdiv (fin3 x) (Fin (rnorm x)),
        vdiv (fin3 y) (Fin (rnorm y)),
        vdiv (fin3 z) (Fin (rnorm z))).
Proof.
  unfold estimate_orthonormal_basis. rewrite !shape_array1, !to_vec3_array1.
  rewrite !bool_decide_eq_false_2 by (intros H; by apply H). simpl orb. cbv zeta.
  by rewrite !vsub_fin, !cross_fin, !norm_fin.
Qed.

(** The raw vectors: [x] is a positive multiple of forward, and [y] is
    orthogonal to [z] with norm |z| |forward|. *)
Lemma raw_x_is_forward f l :
  let z := rcross f l in
  rcross (rcross z f) z = rscale (rdot z z) f.
Proof. destruct f as [[??]?], l as [[??]?]. simpl. vec_eq. Qed.

Lemma raw_y_norm_sqr f l :
  let z := rcross f l in
  rdot (rcross z f) (rcross z f) = rdot z z * rdot f f.
Proof. destruct f as [[??]?], l as [[??]?]. simpl. ring. Qed.

Lemma rcross_nonzero_l f l : rcross f l ≠ zero3 → f ≠ zero3.
Proof. intros H Hf. apply H. rewrite Hf. apply rcross_zero_l. Qed.

Lemma rnorm_normalized a : a ≠ zero3 → rdot (rscale (/ rnorm a) a) (rscale (/ rnorm a) a) = 1.
Proof.
  intros Ha. pose proof (rnorm_pos a Ha) as Hp.
  rewrite rdot_scale, <- rnorm_sqr. field. lra.
Qed.

(** From two orthogonal unit vectors [y] and [z], the vector [y x z]
    completes a right-handed orthonormal basis, exactly. *)
Lemma orthonormal_from_y_z y z (tol : R) :
  0 <= tol → rdot y y = 1 → rdot z z = 1 → rdot y z = 0 →
  orthonormal_within tol (rcross y z) y z.
Proof.
  intros Htol Hyy Hzz Hyz.
  assert (rdot z y = 0) as Hzy by (by rewrite rdot_comm).
  assert (∀ r : R, close tol r r) as Hclose.
  { intros r. unfold close. replace (r - r) with 0 by ring. by rewrite Rabs_R0. }
  assert (∀ v : rvec, close3 tol v v) as Hclose3.
  { intros [[??]?]. simpl. auto. }
  assert (rdot (rcross y z) (rcross y z) = 1) as Hxx.
  { rewrite rcross_norm_sqr, Hyy, Hzz, Hyz. ring. }
  assert (rcross (rcross y z) y = z) as Hxy.
  { rewrite rcross_cross_l, Hyy, Hzy.
    destruct y as [[??]?], z as [[??]?]. simpl. vec_eq. }
  assert (rcross z (rcross y z) = y) as Hzx.
  { rewrite rcross_cross_r, Hzz, Hzy.
    destruct y as [[??]?], z as [[??]?]. simpl. vec_eq. }
  unfold orthonormal_within.
  rewrite !rnorm_unit by done. rewrite Hxy, Hzx, Hzy.
  rewrite (rdot_comm z (rcross y z)), (rdot_comm y (rcross y z)).
  rewrite rdot_cross_l, rdot_cross_r, rdet_triple, Hxx.
  unfold rmatvec.
  rewrite Hxx, Hyy, Hzz, Hzy, Hyz, rdot_cross_l, rdot_cross_r.
  rewrite (rdot_comm y (rcross y z)), (rdot_comm z (rcross y z)).
  rewrite rdot_cross_l, rdot_cross_r.
  repeat split; auto.
Qed.

Lemma close_zero (a b : R) : close 0 a b → a = b.
Proof.
  unfold close. intros H. destruct (Req_dec_T a b) as [|Hne]; [done|].
  assert (a - b ≠ 0) as Hd by lra. apply Rabs_pos_lt in Hd. lra.
Qed.

Lemma close3_zero a b : close3 0 a b → a = b.
Proof.
  destruct a as [[??]?], b as [[??]?]. simpl.
  intros (?%close_zero & ?%close_zero & ?%close_zero). by subst.
Qed.

Lemma isclose_refl (r atol : R) : 0 <= atol → isclose (Fin r) (Fin r) atol = true.
Proof.
  intros H. unfold isclose. apply bool_decide_eq_true.
  replace (r - r) with 0 by ring. rewrite Rabs_R0.
  pose proof (Rabs_pos r). unfold rtol. nra.
Qed.

Lemma allclose3_refl a (atol : R) : 0 <= atol → allclose3 (fin3 a) (fin3 a) atol = true.
Proof.
  intros H. destruct a as [[??]?]. unfold allclose3, fin3. by rewrite !isclose_refl.
Qed.

(** An exactly orthonormal right-handed basis passes the thirteen
    assertions. *)
Lemma basis_assertions_exact x y z :
  orthonormal_within 0 x y z → basis_assertions (fin3 x) (fin3 y) (fin3 z) = Ok ().
Proof.
  intros ((Hx & Hy & Hz) & (Hzy & Hzx & Hyx) & (Hxy & Hyz & Hzx') & (Mx & My & Mz) & Hd).
  apply close_zero in Hx, Hy, Hz, Hzy, Hzx, Hyx, Hd.
  apply close3_zero in Hxy, Hyz, Hzx', Mx, My, Mz.
  unfold basis_assertions.
  rewrite !norm_fin, !dot_fin, !cross_fin, !matvec_fin, det_fin.
  rewrite Hx, Hy, Hz, Hzy, Hzx, Hyx, Hxy, Hyz, Hzx', Mx, My, Mz, Hd.
  assert (0 <= 1e-6) as Htol by lra.
  unfold allclose.
  change (Fin 1, Fin 0, Fin 0) with (fin3 (1, 0, 0)).
  change (Fin 0, Fin 1, Fin 0) with (fin3 (0, 1, 0)).
  change (Fin 0, Fin 0, Fin 1) with (fin3 (0, 0, 1)).
  by rewrite !isclose_refl, !allclose3_refl.
Qed.

Lemma rnorm_zero3 : rnorm zero3 = 0.
Proof.
  unfold rnorm, zero3. simpl. replace (0 * 0 + 0 * 0 + 0 * 0) with 0 by ring.
  apply sqrt_0.
Qed.

(** For non-degenerate reference points the estimator returns the
    normalised raw vectors; the first is forward over its norm and the
    cross product of the other two, which are orthogonal unit vectors. *)
Lemma estimate_orthonormal_basis_non_degenerate c f l u :
  rcross (rsub f c) (rsub l c) ≠ zero3 →
  let forward := rsub f c in
  let z := rcross forward (rsub l c) in
  let y := rcross z forward in
  let x := rcross y z in
  let x_hat := rscale (/ rnorm x) x in
  let y_hat := rscale (/ rnorm y) y in
  let z_hat := rscale (/ rnorm z) z in
  estimate_orthonormal_basis (array1 (fin3 c)) (array1 (fin3 f))
    (array1 (fin3 l)) (array1 (fin3 u))
  = Ok (fin3 x_hat, fin3 y_hat, fin3 z_hat)
  ∧ x_hat = rscale (/ rnorm forward) forward
  ∧ 0 < / rnorm forward
  ∧ x_hat = rcross y_hat z_hat
  ∧ rdot y_hat y_hat = 1 ∧ rdot z_hat z_hat = 1 ∧ rdot y_hat z_hat = 0.
Proof.
  intros Hz forward z y x x_hat y_hat z_hat.
  assert (forward ≠ zero3) as Hf by (by eapply rcross_nonzero_l).
  pose proof (rnorm_pos z Hz) as Hnz. pose proof (rnorm_pos forward Hf) as Hnf.
  pose proof (rdot_self_pos z Hz) as Hzz.
  assert (rdot y y = rdot z z * rdot forward forward) as Hyy
    by apply raw_y_norm_sqr.
  assert (rnorm y = rnorm z * rnorm forward) as Hny.
  { unfold rnorm. rewrite Hyy. apply sqrt_mult; apply rdot_self_nonneg. }
  assert (x = rscale (rdot z z) forward) as Hx by apply raw_x_is_forward.
  assert (rnorm x = rdot z z * rnorm forward) as Hnx.
  { rewrite Hx. apply rnorm_scale. lra. }
  assert (y ≠ zero3) as Hy.
  { intros Hy0. assert (rnorm y = 0) by (rewrite Hy0; apply rnorm_zero3). nra. }
  assert (x_hat = rscale (/ rnorm forward) forward) as Hxh.
  { unfold x_hat. rewrite Hnx, Hx, rscale_rscale. f_equal. field. lra. }
  split; [|split; [done|split; [|split; [|split; [|split]]]]].
  - rewrite estimate_orthonormal_basis_fin. cbv zeta.
    fold forward. fold z. fold y. fold x.
    rewrite !vdiv_fin by nra. done.
  - apply Rinv_0_lt_compat. done.
  - rewrite Hxh. unfold y_hat, z_hat. rewrite rcross_scale.
    fold x. rewrite Hx, rscale_rscale, Hny. f_equal.
    rewrite <- (rnorm_sqr z). field. lra.
  - by apply rnorm_normalized.
  - by apply rnorm_normalized.
  - unfold y_hat, z_hat. rewrite rdot_scale. unfold y.
    rewrite rdot_cross_l. ring.
Qed.

(** For degenerate reference points (coincident or collinear) every
    component of the returned vectors is NaN, and the first assertion
    fails. *)
Lemma estimate_orthonormal_basis_degenerate c f l u :
  rcross (rsub f c) (rsub l c) = zero3 →
  estimate_orthonormal_basis (array1 (fin3 c)) (array1 (fin3 f))
    (array1 (fin3 l)) (array1 (fin3 u))
  = Ok ((NaN, NaN, NaN), (NaN, NaN, NaN), (NaN, NaN, NaN)).
Proof.
  intros Hz. rewrite estimate_orthonormal_basis_fin. cbv zeta.
  rewrite Hz, !rcross_zero_l, rnorm_zero3. by rewrite !vdiv_by_zero.
Qed.

Lemma basis_assertions_nan (y z : vec3) :
  basis_assertions (NaN, NaN, NaN) y z = Raise AssertionError.
Proof. reflexivity. Qed.

Lemma basis_assertions_outcomes (x y z : vec3) :
  basis_assertions x y z = Ok () ∨ basis_assertions x y z = Raise AssertionError.
Proof.
  unfold basis_assertions, assert_.
  repeat match goal with
         | |- context [if ?b then _ else _] => destruct b; simpl; auto
         end.
Qed.





End Estimator.

(** * The object store: deepcopy and the transform loop *)

Section Store.

Implicit Types (h : heap) (memo : gmap loc loc) (d : gmap string loc).

Lemma obj_store_eq h l o : obj (store h l o) l = o.
Proof. simpl. by rewrite decide_True. Qed.

Lemma obj_store_ne h l l' o : l' ≠ l → obj (store h l o) l' = obj h l'.
Proof. intros H. simpl. by rewrite decide_False. Qed.

Lemma copy_objects_spec (h0 : heap) (ls : list loc) :
  ∀ h memo,
    (∀ l, l ∈ ls → l < next h0) →
    copy_inv h0 h memo →
    copy_inv h0 (copy_objects ls h memo).1 (copy_objects ls h memo).2
    ∧ memo ⊆ (copy_objects ls h memo).2
    ∧ ∀ l, l ∈ ls → is_Some ((copy_objects ls h memo).2 !! l).
Proof.
  induction ls as [|l ls IH]; intros h memo Hls Hinv; simpl.
  - split; [done|]. split; [done|]. intros l Hl. inversion Hl.
  - assert (∀ l', l' ∈ ls → l' < next h0) as Hls'
      by (intros l' Hl'; apply Hls; by right).
    assert (l < next h0) as Hl by (apply Hls; by left).
    destruct (memo !! l) as [l'|] eqn:Hm.
    + destruct (IH h memo Hls' Hinv) as (Hi & Hsub & Hin).
      split; [done|]. split; [done|].
      intros l0 [->|Hl0]%elem_of_cons; [|by apply Hin].
      exists l'. by eapply lookup_weaken.
    + destruct Hinv as (Hnext & Hold & Hmemo & Hinj).
      set (h1 := {| next := S (next h);
                    obj := λ l', if decide (l' = next h) then obj h l else obj h l' |}).
      assert (copy_inv h0 h1 (<[l:=next h]> memo)) as Hinv1.
      { unfold copy_inv. simpl. split; [lia|]. split; [|split].
        - intros x Hx. rewrite decide_False by lia. by apply Hold.
        - intros a b Hab. apply lookup_insert_Some in Hab as [[<- <-]|[Hne Hab]].
          + rewrite decide_True by done. split; [lia|]. split; [lia|].
            by apply Hold.
          + destruct (Hmemo a b Hab) as (? & ? & ?).
            rewrite decide_False by lia. split; [lia|]. split; [lia|done].
        - intros a1 a2 b H1 H2.
          apply lookup_insert_Some in H1 as [[<- <-]|[Hne1 H1]];
            apply lookup_insert_Some in H2 as [[<- E]|[Hne2 H2]]; try done.
          + destruct (Hmemo a2 _ H2) as (? & ? & ?). lia.
          + subst b. destruct (Hmemo a1 _ H1) as (? & ? & ?). lia.
          + by eapply Hinj. }
      destruct (IH h1 _ Hls' Hinv1) as (Hi & Hsub & Hin).
      split; [done|]. split.
      * etrans; [|exact Hsub]. by apply insert_subseteq.
      * intros l0 [->|Hl0]%elem_of_cons; [|by apply Hin].
        exists (next h). eapply lookup_weaken; [|exact Hsub].
        by rewrite lookup_insert_eq.
Qed.

Lemma copy_inv_init h : copy_inv h h ∅.
Proof.
  unfold copy_inv. split; [done|]. split; [done|].
  split; intros *; by rewrite lookup_empty.
Qed.

(** [deepcopy]: the new dict has the keys of the old one, each referring
    to the copy of the object the old one refers to. *)
Lemma deepcopy_spec h d :
  heap_wf h d →
  ∃ memo,
    copy_inv h (deepcopy h d).1 memo
    ∧ (∀ key, (deepcopy h d).2 !! key = d !! key ≫= (memo !!.))
    ∧ (∀ key l, d !! key = Some l → is_Some (memo !! l)).
Proof.
  intros Hwf. unfold deepcopy.
  match goal with
  | |- context [copy_objects ?ls h ∅] =>
      assert (∀ l, l ∈ ls → l < next h) as Hls;
      [| generalize (copy_objects_spec h ls h ∅ Hls (copy_inv_init h));
         destruct (copy_objects ls h ∅) as [h' memo] ]
  end.
  { intros l Hl. apply list_elem_of_fmap in Hl as ([k l'] & -> & Hin).
    apply elem_of_map_to_list in Hin. by eapply Hwf. }
  simpl. intros (Hinv & _ & Hin).
  exists memo. split; [done|]. split.
  - intros key. by rewrite lookup_omap.
  - intros key l Hd. apply Hin. apply list_elem_of_fmap.
    exists (key, l). split; [done|]. by apply elem_of_map_to_list.
Qed.

Lemma name_set_trajectory_data (o : Trajectory.t) (v : list vec3) :
  Trajectory.name (Trajectory.set_trajectory_data o v) = Trajectory.name o.
Proof. done. Qed.

(** The loop of lines 66-70, run on the copy [kt'] of [kt] in a store
    that still holds the objects of [h0]: it ends normally, leaves the
    objects of [h0] alone, and leaves in the copy of every key the
    transformed data of the original. *)
Lemma transform_loop_spec (h0 : heap) (kt kt' : gmap string loc) memo
    (t : vec3) (R : mat3) (keys : list string) :
  (∀ l l', memo !! l = Some l' → (next h0 ≤ l')%nat) →
  (∀ l1 l2 l', memo !! l1 = Some l' → memo !! l2 = Some l' → l1 = l2) →
  heap_wf h0 kt →
  (∀ key, kt' !! key = kt !! key ≫= (memo !!.)) →
  (∀ key, key ∈ keys → is_Some (kt' !! key)) →
  ∀ h, (∀ l, l < next h0 → obj h l = obj h0 l) →
    ∃ h', transform_loop keys kt kt' t R h = (h', Ok ())
      ∧ next h' = next h
      ∧ (∀ l, l < next h0 → obj h' l = obj h0 l)
      ∧ (∀ x, Trajectory.name (obj h' x) = Trajectory.name (obj h x))
      ∧ (∀ x, (∀ key, key ∈ keys → kt' !! key ≠ Some x) → obj h' x = obj h x)
      ∧ (∀ key l l', key ∈ keys → kt !! key = Some l → kt' !! key = Some l' →
           Trajectory.trajectory_data (obj h' l')
           = transform_points (Trajectory.trajectory_data (obj h0 l)) t R).
Proof.
  intros Hrange Hinj Hwf Hkt'. induction keys as [|key keys IH]; intros Hkeys h Hold.
  - exists h. repeat split; try done. intros key l l' Hin. inversion Hin.
  - destruct (Hkeys key) as [l' Hl']; [by left|].
    pose proof Hl' as Hb. rewrite Hkt' in Hb.
    apply bind_Some in Hb as (l & Hl & Hm).
    assert (l < next h0) as Hlt by (by eapply Hwf).
    pose proof (Hrange _ _ Hm) as Hge.
    simpl. unfold getitem. rewrite Hl, Hl'.
    set (h1 := store h l' _).
    assert (∀ x, x < next h0 → obj h1 x = obj h0 x) as Hold1.
    { intros x Hx. unfold h1. rewrite obj_store_ne by lia. by apply Hold. }
    destruct (IH (λ k Hk, Hkeys k (list_elem_of_further _ _ _ Hk)) h1 Hold1)
      as (h' & Hrun & Hnext & Hold' & Hname & Hother & Hdone).
    exists h'. split; [done|]. split; [done|]. split; [done|].
    split; [|split].
    + intros x. rewrite Hname. unfold h1. simpl. by case_decide; subst.
    + intros x Hx. rewrite Hother.
      * unfold h1. apply obj_store_ne. intros ->. by apply (Hx key); [left|].
      * intros k Hk. apply Hx. by right.
    + intros k lk lk' Hk Hlk Hlk'.
      destruct (decide (k ∈ keys)) as [Hin|Hnin]; [by eapply Hdone|].
      apply elem_of_cons in Hk as [->|Hk]; [|done].
      assert (lk = l) as -> by congruence. assert (lk' = l') as -> by congruence.
      destruct (decide (Exists (λ k, kt' !! k = Some l') keys)) as [Hex|Hnex].
      * apply Exists_exists in Hex as (k2 & Hk2 & Hk2').
        pose proof Hk2' as Hb2. rewrite Hkt' in Hb2.
        apply bind_Some in Hb2 as (l2 & Hl2 & Hm2).
        assert (l2 = l) as -> by (by eapply Hinj).
        by eapply Hdone.
      * rewrite Hother.
        -- unfold h1. rewrite obj_store_eq. simpl. by rewrite (Hold l).
        -- intros k2 Hk2 Hk2'. apply Hnex. apply Exists_exists. eauto.
Qed.

End Store.

(** * Properties of put_skeleton_on_ground *)

Section Ground.

Variable get_low_velocity_frame : list (string * Trajectory.t) → result nat.

Implicit Types (h : heap) (kt : gmap string loc).

Lemma put_skeleton_on_ground_reference_raises h kt e :
  reference_basis get_low_velocity_frame h kt = Raise e →
  put_skeleton_on_ground get_low_velocity_frame h kt = (h, Raise e).
Proof. intros H. unfold put_skeleton_on_ground. by rewrite H. Qed.

Lemma put_skeleton_on_ground_assertion_raises h kt center x_hat y_hat z_hat :
  reference_basis get_low_velocity_frame h kt = Ok (center, (x_hat, y_hat, z_hat)) →
  basis_assertions x_hat y_hat z_hat ≠ Ok () →
  put_skeleton_on_ground get_low_velocity_frame h kt = (h, Raise AssertionError).
Proof.
  intros H Hne. unfold put_skeleton_on_ground. rewrite H. simpl.
  destruct (basis_assertions_outcomes x_hat y_hat z_hat) as [Hok | ->]; [done|].
  reflexivity.
Qed.

(** Past the assertions the function ends normally: the objects of the
    input store are as they were, and the returned dict has the keys of
    the input, each referring to a new object with the old name and the
    transformed data. *)
Lemma put_skeleton_on_ground_success h kt center x_hat y_hat z_hat :
  heap_wf h kt →
  reference_basis get_low_velocity_frame h kt = Ok (center, (x_hat, y_hat, z_hat)) →
  basis_assertions x_hat y_hat z_hat = Ok () →
  ∃ h' out,
    put_skeleton_on_ground get_low_velocity_frame h kt = (h', Ok out)
    ∧ (∀ l, l < next h → obj h' l = obj h l)
    ∧ (∀ key, is_Some (out !! key) ↔ is_Some (kt !! key))
    ∧ (∀ key l, kt !! key = Some l →
         ∃ l', out !! key = Some l'
               ∧ (next h ≤ l')%nat
               ∧ Trajectory.name (obj h' l') = Trajectory.name (obj h l)
               ∧ Trajectory.trajectory_data (obj h' l')
                 = transform_points (Trajectory.trajectory_data (obj h l))
                     (vneg center) (x_hat, y_hat, z_hat)).
Proof.
  intros Hwf Href Hassert. unfold put_skeleton_on_ground.
  rewrite Href. simpl. rewrite Hassert. simpl.
  generalize (deepcopy_spec h kt Hwf).
  destruct (deepcopy h kt) as [h1 out]. simpl.
  intros (memo & (Hnext & Hold & Hmemo & Hinj) & Hout & Hin).
  destruct (transform_loop_spec h kt out memo (vneg center) (x_hat, y_hat, z_hat)
              (map_to_list out).*1) with (h := h1)
    as (h2 & Hrun & Hnext2 & Hold2 & Hname & _ & Hdone); try done.
  { intros l l' Hl. by destruct (Hmemo l l' Hl). }
  { intros key ([k l] & -> & Hk)%list_elem_of_fmap.
    apply elem_of_map_to_list in Hk. by exists l. }
  rewrite Hrun. exists h2, out. split; [done|]. split; [done|]. split.
  - intros key. rewrite Hout. split.
    + intros [l' (l & Hl & _)%bind_Some]. by exists l.
    + intros [l Hl]. rewrite Hl. simpl. by eapply Hin.
  - intros key l Hl. destruct (Hin key l Hl) as [l' Hl'].
    assert (out !! key = Some l') as Ho by (rewrite Hout, Hl; done).
    destruct (Hmemo l l' Hl') as (Hge & Hlt & Hobj).
    exists l'. split; [done|]. split; [done|]. split.
    + by rewrite Hname, Hobj.
    + eapply Hdone; [|done|done].
      apply list_elem_of_fmap. exists (key, l'). split; [done|].
      by apply elem_of_map_to_list.
Qed.

(** The three ways the function ends. *)
Lemma put_skeleton_on_ground_cases h kt :
  (∃ e, put_skeleton_on_ground get_low_velocity_frame h kt = (h, Raise e))
  ∨ (∃ center x_hat y_hat z_hat,
       reference_basis get_low_velocity_frame h kt = Ok (center, (x_hat, y_hat, z_hat))
       ∧ basis_assertions x_hat y_hat z_hat = Ok ()).
Proof.
  destruct (reference_basis get_low_velocity_frame h kt) as [[center [[x y] z]]|e] eqn:Href.
  - destruct (basis_assertions_outcomes x y z) as [Hok|Hr].
    + right. by exists center, x, y, z.
    + left. exists AssertionError.
      eapply put_skeleton_on_ground_assertion_raises; [done|]. congruence.
  - left. exists e. by apply put_skeleton_on_ground_reference_raises.
Qed.

(** C9. Whatever the outcome of [put_skeleton_on_ground] on a dict of
    live Trajectory objects, every object of the input store, and so
    every input trajectory with its data array, is after the call what
    it was before; a returned dict refers to newly allocated objects
    only. *)
Theorem C9_input_trajectories_unchanged h kt :
  heap_wf h kt →
  (∀ l, l < next h → obj (put_skeleton_on_ground get_low_velocity_frame h kt).1 l = obj h l)
  ∧ (∀ key l, kt !! key = Some l →
       obj (put_skeleton_on_ground get_low_velocity_frame h kt).1 l = obj h l)
  ∧ (∀ out key l', (put_skeleton_on_ground get_low_velocity_frame h kt).2 = Ok out →
       out !! key = Some l' → (next h ≤ l')%nat ∧ kt !! key ≠ Some l').
Proof.
  intros Hwf.
  assert ((∀ l, l < next h → obj (put_skeleton_on_ground get_low_velocity_frame h kt).1 l = obj h l)
          ∧ (∀ out key l', (put_skeleton_on_ground get_low_velocity_frame h kt).2 = Ok out →
               out !! key = Some l' → (next h ≤ l')%nat)) as [Hold Hnew].
  { destruct (put_skeleton_on_ground_cases h kt)
      as [[e ->] | (center & x & y & z & Href & Hok)]; [done|].
    destruct (put_skeleton_on_ground_success h kt center x y z Hwf Href Hok)
      as (h' & out & -> & Hold & Hdom & Hcopy). simpl.
    split; [done|]. intros out' key l' [= <-] Hl'.
    destruct (proj1 (Hdom key)) as [l Hl]; [by eexists|].
    destruct (Hcopy key l Hl) as (l2 & Hl2 & Hge & _). congruence. }
  split; [done|]. split.
  - intros key l Hl. apply Hold. by eapply Hwf.
  - intros out key l' Hout Hl'. split; [by eapply Hnew|].
    intros Hkt. apply Hwf in Hkt. pose proof (Hnew _ _ _ Hout Hl'). lia.
Qed.

End Ground.

(** * The estimator: shapes, orthonormality, rejection *)

Section EstimatorTheorems.

Local Open Scope R_scope.

(** C10. [estimate_orthonormal_basis] raises ValueError exactly when one
    of its four arguments has a shape other than (3,), whatever the
    arrays hold; so a basis is returned only for four arrays of shape
    (3,). *)
Theorem C10_malformed_shape_raises_value_error
    (center_reference_point x_forward_reference_point
     y_leftward_reference_point z_upward_reference_point : ndarray) :
  let malformed :=
    shape center_reference_point ≠ [3%nat]
    ∨ shape x_forward_reference_point ≠ [3%nat]
    ∨ shape y_leftward_reference_point ≠ [3%nat]
    ∨ shape z_upward_reference_point ≠ [3%nat] in
  let outcome :=
    estimate_orthonormal_basis center_reference_point x_forward_reference_point
      y_leftward_reference_point z_upward_reference_point in
  (malformed → outcome = Raise ValueError)
  ∧ (∀ basis, outcome = Ok basis → ¬ malformed)
  ∧ (∀ e, outcome = Raise e → e = ValueError ∧ malformed).
Proof.
  intros malformed outcome. subst malformed outcome.
  unfold estimate_orthonormal_basis.
  match goal with
  | |- context [if ?b then _ else _] =>
      assert (b = true
              ↔ shape center_reference_point ≠ [3%nat]
                ∨ shape x_forward_reference_point ≠ [3%nat]
                ∨ shape y_leftward_reference_point ≠ [3%nat]
                ∨ shape z_upward_reference_point ≠ [3%nat]) as Hb
        by (rewrite !orb_true_iff, !bool_decide_eq_true; tauto);
      destruct b
  end.
  - pose proof (proj1 Hb eq_refl) as Hm. split; [done|]. split; [done|].
    by intros e [= <-].
  - assert (¬ (shape center_reference_point ≠ [3%nat]
               ∨ shape x_forward_reference_point ≠ [3%nat]
               ∨ shape y_leftward_reference_point ≠ [3%nat]
               ∨ shape z_upward_reference_point ≠ [3%nat])) as Hm
      by (intros Hm; apply Hb in Hm; discriminate).
    split; [done|]. split; [done|]. cbv zeta. intros e. discriminate.
Qed.

Lemma C10_witness :
  estimate_orthonormal_basis {| shape := [2%nat]; data := [Fin 1; Fin 0] |}
    (array1 (fin3 (1, 0, 0))) (array1 (fin3 (0, 1, 0))) (array1 (fin3 (0, 0, 1)))
  = Raise ValueError
  ∧ estimate_orthonormal_basis (array1 (fin3 (0, 0, 0)))
      (array1 (fin3 (1, 0, 0)))
      {| shape := [1%nat; 3%nat]; data := [Fin 0; Fin 1; Fin 0] |}
      (array1 (fin3 (0, 0, 1)))
    = Raise ValueError.
Proof.
  split.
  - apply (proj1 (C10_malformed_shape_raises_value_error
                    {| shape := [2%nat]; data := [Fin 1; Fin 0] |}
                    (array1 (fin3 (1, 0, 0))) (array1 (fin3 (0, 1, 0)))
                    (array1 (fin3 (0, 0, 1))))).
    left. simpl. discriminate.
  - apply (proj1 (C10_malformed_shape_raises_value_error
                    (array1 (fin3 (0, 0, 0))) (array1 (fin3 (1, 0, 0)))
                    {| shape := [1%nat; 3%nat]; data := [Fin 0; Fin 1; Fin 0] |}
                    (array1 (fin3 (0, 0, 1))))).
    right. right. left. simpl. discriminate.
Defined.

Lemma orthonormal_of_non_degenerate (c f l u : rvec) :
  non_degenerate c f l →
  ∃ x_hat y_hat z_hat : rvec,
    estimate_orthonormal_basis (array1 (fin3 c)) (array1 (fin3 f))
      (array1 (fin3 l)) (array1 (fin3 u))
    = Ok (fin3 x_hat, fin3 y_hat, fin3 z_hat)
    ∧ orthonormal_within 0 x_hat y_hat z_hat
    ∧ orthonormal_within 1e-6 x_hat y_hat z_hat
    ∧ basis_assertions (fin3 x_hat) (fin3 y_hat) (fin3 z_hat) = Ok ().
Proof.
  intros Hnd%non_degenerate_cross.
  destruct (estimate_orthonormal_basis_non_degenerate c f l u Hnd)
    as (He & _ & _ & Hx & Hyy & Hzz & Hyz).
  eexists _, _, _. split; [exact He|].
  rewrite Hx.
  assert (∀ tol, 0 <= tol → orthonormal_within tol
            (rcross (rscale (/ rnorm (rcross (rcross (rsub f c) (rsub l c)) (rsub f c)))
                       (rcross (rcross (rsub f c) (rsub l c)) (rsub f c)))
                    (rscale (/ rnorm (rcross (rsub f c) (rsub l c)))
                       (rcross (rsub f c) (rsub l c))))
            (rscale (/ rnorm (rcross (rcross (rsub f c) (rsub l c)) (rsub f c)))
               (rcross (rcross (rsub f c) (rsub l c)) (rsub f c)))
            (rscale (/ rnorm (rcross (rsub f c) (rsub l c)))
               (rcross (rsub f c) (rsub l c)))) as Hon.
  { intros tol Htol. by apply orthonormal_from_y_z. }
  split; [apply Hon; lra|]. split; [apply Hon; lra|].
  apply basis_assertions_exact, Hon. lra.
Qed.



End EstimatorTheorems.

(** * The transform applied to the trajectories *)

Section Transform.

Local Open Scope R_scope.

(** *** Where NaN can come from *)










(** *** The transform is the rigid map, point by point *)

Lemma vadd_vneg (p c : vec3) : vadd p (vneg c) = vsub p c.
Proof.
  by destruct p as [[[|p0] [|p1]] [|p2]], c as [[[|c0] [|c1]] [|c2]].
Qed.

Lemma transform_points_rigid_map (points : list vec3) (center : vec3) (R : mat3) :
  transform_points points (vneg center) R = map (rigid_map center R) points.
Proof.
  unfold transform_points, rotate_points, translate_points, rigid_map.
  rewrite map_map. apply map_ext. intros p. by rewrite vadd_vneg.
Qed.

(** *** The reference points *)


Lemma reference_basis_inv get_low_velocity_frame h kt center R :
  reference_basis get_low_velocity_frame h kt = Ok (center, R) →
  ∃ x_forward y_leftward z_upward,
    reference_points get_low_velocity_frame h kt
    = Ok (center, x_forward, y_leftward, z_upward)
    ∧ estimate_orthonormal_basis (array1 center) (array1 x_forward)
        (array1 y_leftward) (array1 z_upward)
      = Ok R.
Proof.
  unfold reference_basis.
  destruct (reference_points _ h kt) as [[[[c xf] yl] zu]|]; [simpl|done].
  destruct (estimate_orthonormal_basis _ _ _ _) as [[[x y] z]|] eqn:He; [simpl|done].
  intros [= <- <-]. by exists xf, yl, zu.
Qed.

Lemma reference_basis_eq get_low_velocity_frame h kt center x_forward y_leftward
    z_upward (R : mat3) :
  reference_points get_low_velocity_frame h kt
  = Ok (center, x_forward, y_leftward, z_upward) →
  estimate_orthonormal_basis (array1 center) (array1 x_forward)
    (array1 y_leftward) (array1 z_upward)
  = Ok R →
  reference_basis get_low_velocity_frame h kt = Ok (center, R).
Proof.
  intros Hpts He. unfold reference_basis. rewrite Hpts. simpl. rewrite He.
  by destruct R as [[x y] z].
Qed.

End Transform.

Section TransformTheorems.

Local Open Scope R_scope.


(** The function returns whenever the reference points are finite and
    not degenerate. *)
Lemma put_skeleton_on_ground_returns get_low_velocity_frame h kt (c f l u : rvec) :
  heap_wf h kt →
  reference_points get_low_velocity_frame h kt = Ok (fin3 c, fin3 f, fin3 l, fin3 u) →
  non_degenerate c f l →
  ∃ h' out, put_skeleton_on_ground get_low_velocity_frame h kt = (h', Ok out).
Proof.
  intros Hwf Hpts Hnd.
  destruct (orthonormal_of_non_degenerate c f l u Hnd)
    as (x & y & z & He & _ & _ & Hok).
  destruct (put_skeleton_on_ground_success get_low_velocity_frame h kt
              (fin3 c) (fin3 x) (fin3 y) (fin3 z) Hwf) as (h' & out & Hrun & _);
    [|done|by exists h', out].
  by eapply reference_basis_eq.
Qed.

(** *** The sample capture *)

Lemma nanmean_fin2 (a0 a1 a2 b0 b1 b2 : R) :
  nanmean [fin3 (a0, a1, a2); fin3 (b0, b1, b2)]
  = fin3 ((a0 + b0) / 2, (a1 + b1) / 2, (a2 + b2) / 2).
Proof.
  unfold nanmean, nanmean1. simpl. vec_eq; f_equal; field.
Qed.

(** With four finite points [np.nanmean] is the arithmetic mean. *)
Lemma nanmean_fin4 (a0 a1 a2 b0 b1 b2 c0 c1 c2 d0 d1 d2 : R) :
  nanmean [fin3 (a0, a1, a2); fin3 (b0, b1, b2); fin3 (c0, c1, c2); fin3 (d0, d1, d2)]
  = fin3 ((a0 + b0 + c0 + d0) / 4, (a1 + b1 + c1 + d1) / 4, (a2 + b2 + c2 + d2) / 4).
Proof.
  unfold nanmean, nanmean1. simpl. vec_eq; f_equal; field.
Qed.

Lemma sample_heap_wf rh lh rt lt sk nose :
  heap_wf (Sample.store rh lh rt lt sk nose) Sample.keypoint_trajectories.
Proof.
  change (map_Forall (λ (_ : string) (l : loc), (l < 6)%nat) Sample.keypoint_trajectories).
  apply (bool_decide_unpack _). by vm_compute.
Qed.

Lemma sample_reference_points rh lh rt lt sk nose :
  reference_points Sample.get_low_velocity_frame (Sample.store rh lh rt lt sk nose)
    Sample.keypoint_trajectories
  = Ok (nanmean [fin3 rh; fin3 lh; fin3 rt; fin3 lt], nanmean [fin3 rt; fin3 lt],
        nanmean [fin3 lt; fin3 lh], fin3 sk).
Proof.
  unfold reference_points, getitem.
  replace (Sample.keypoint_trajectories !! BodyKeypoints.RIGHT_HEEL)
    with (Some 0%nat) by (by vm_compute).
  replace (Sample.keypoint_trajectories !! BodyKeypoints.LEFT_HEEL)
    with (Some 1%nat) by (by vm_compute).
  replace (Sample.keypoint_trajectories !! BodyKeypoints.RIGHT_HALLUX_TIP)
    with (Some 2%nat) by (by vm_compute).
  replace (Sample.keypoint_trajectories !! BodyKeypoints.LEFT_HALLUX_TIP)
    with (Some 3%nat) by (by vm_compute).
  replace (Sample.keypoint_trajectories !! BodyKeypoints.SKULL_ORIGIN_FORAMEN_MAGNUM)
    with (Some 4%nat) by (by vm_compute).
  reflexivity.
Qed.

Lemma sample_standing_reference_points :
  reference_points Sample.get_low_velocity_frame Sample.standing
    Sample.keypoint_trajectories
  = Ok (fin3 ((-1 + -1 + 1 + 1) / 4, (-1 + 1 + -1 + 1) / 4, (0 + 0 + 0 + 0) / 4),
        fin3 ((1 + 1) / 2, (-1 + 1) / 2, (0 + 0) / 2),
        fin3 ((1 + -1) / 2, (1 + 1) / 2, (0 + 0) / 2),
        fin3 (0, 0, 2)).
Proof.
  unfold Sample.standing. rewrite sample_reference_points.
  by rewrite nanmean_fin4, !nanmean_fin2.
Qed.

Lemma sample_standing_non_degenerate :
  non_degenerate ((-1 + -1 + 1 + 1) / 4, (-1 + 1 + -1 + 1) / 4, (0 + 0 + 0 + 0) / 4)
    ((1 + 1) / 2, (-1 + 1) / 2, (0 + 0) / 2)
    ((1 + -1) / 2, (1 + 1) / 2, (0 + 0) / 2).
Proof.
  apply non_degenerate_cross. unfold zero3. simpl. intros [= _ _ H]. lra.
Qed.

Lemma sample_standing_returns :
  ∃ h' out,
    put_skeleton_on_ground Sample.get_low_velocity_frame Sample.standing
      Sample.keypoint_trajectories
    = (h', Ok out).
Proof.
  eapply put_skeleton_on_ground_returns.
  - apply sample_heap_wf.
  - apply sample_standing_reference_points.
  - apply sample_standing_non_degenerate.
Qed.


Lemma C9_witness :
  obj (put_skeleton_on_ground Sample.get_low_velocity_frame Sample.standing
         Sample.keypoint_trajectories).1 0%nat
  = obj Sample.standing 0%nat
  ∧ obj (put_skeleton_on_ground Sample.get_low_velocity_frame Sample.standing
           Sample.keypoint_trajectories).1 5%nat
    = obj Sample.standing 5%nat.
Proof.
  split.
  - apply (proj1 (proj2 (C9_input_trajectories_unchanged Sample.get_low_velocity_frame
                           Sample.standing Sample.keypoint_trajectories
                           (sample_heap_wf _ _ _ _ _ _))) BodyKeypoints.RIGHT_HEEL).
    by vm_compute.
  - apply (proj1 (C9_input_trajectories_unchanged Sample.get_low_velocity_frame
                    Sample.standing Sample.keypoint_trajectories
                    (sample_heap_wf _ _ _ _ _ _))).
    simpl. lia.
Defined.

Lemma sample_collapsed_reference_basis :
  reference_basis Sample.get_low_velocity_frame Sample.collapsed
    Sample.keypoint_trajectories
  = Ok (fin3 ((0 + 0 + 0 + 0) / 4, (0 + 0 + 0 + 0) / 4, (0 + 0 + 0 + 0) / 4),
        ((NaN, NaN, NaN), (NaN, NaN, NaN), (NaN, NaN, NaN))).
Proof.
  eapply reference_basis_eq.
  - unfold Sample.collapsed. rewrite sample_reference_points.
    by rewrite nanmean_fin4, !nanmean_fin2.
  - apply estimate_orthonormal_basis_degenerate. unfold zero3. simpl. vec_eq.
Qed.


End TransformTheorems.

(** * More on estimate_orthonormal_basis *)

Section EstimatorMore.

Local Open Scope R_scope.

Implicit Types a b c f l u v x y z : rvec.

(** *** The upward reference point *)

(** Lines 135-145: [z_up] is computed and never read.  The upward
    reference point only has to have shape (3,); two such points, with
    or without NaN, give the same outcome. *)
Theorem estimate_orthonormal_basis_ignores_upward
    (center_reference_point x_forward_reference_point
     y_leftward_reference_point up1 up2 : ndarray) :
  shape up1 = [3%nat] → shape up2 = [3%nat] →
  estimate_orthonormal_basis center_reference_point x_forward_reference_point
    y_leftward_reference_point up1
  = estimate_orthonormal_basis center_reference_point x_forward_reference_point
      y_leftward_reference_point up2.
Proof.
  intros H1 H2. unfold estimate_orthonormal_basis. by rewrite H1, H2.
Qed.

Lemma estimate_orthonormal_basis_ignores_upward_witness :
  estimate_orthonormal_basis (array1 (fin3 (0, 0, 0))) (array1 (fin3 (1, 0, 0)))
    (array1 (fin3 (0, 1, 0))) (array1 (fin3 (0, 0, 1)))
  = estimate_orthonormal_basis (array1 (fin3 (0, 0, 0))) (array1 (fin3 (1, 0, 0)))
      (array1 (fin3 (0, 1, 0))) (array1 nan3).
Proof.
  apply (estimate_orthonormal_basis_ignores_upward
           (array1 (fin3 (0, 0, 0))) (array1 (fin3 (1, 0, 0)))
           (array1 (fin3 (0, 1, 0))) (array1 (fin3 (0, 0, 1))) (array1 nan3));
    reflexivity.
Defined.

(** The estimator on finite center, forward and leftward points, whatever
    the upward point holds. *)
Lemma estimate_orthonormal_basis_fin_any_up c f l (up : vec3) :
  estimate_orthonormal_basis (array1 (fin3 c)) (array1 (fin3 f))
    (array1 (fin3 l)) (array1 up)
  = estimate_orthonormal_basis (array1 (fin3 c)) (array1 (fin3 f))
      (array1 (fin3 l)) (array1 (fin3 zero3)).
Proof. apply estimate_orthonormal_basis_ignores_upward; apply shape_array1. Qed.

(** The basis of non-degenerate reference points, written out. *)
Lemma estimate_orthonormal_basis_explicit c f l (up : vec3) :
  rcross (rsub f c) (rsub l c) ≠ zero3 →
  let forward := rsub f c in
  let z := rcross forward (rsub l c) in
  let y := rcross z forward in
  let x_hat := rscale (/ rnorm forward) forward in
  let y_hat := rscale (/ rnorm y) y in
  let z_hat := rscale (/ rnorm z) z in
  estimate_orthonormal_basis (array1 (fin3 c)) (array1 (fin3 f))
    (array1 (fin3 l)) (array1 up)
  = Ok (fin3 x_hat, fin3 y_hat, fin3 z_hat)
  ∧ orthonormal_within 0 x_hat y_hat z_hat
  ∧ basis_assertions (fin3 x_hat) (fin3 y_hat) (fin3 z_hat) = Ok ().
Proof.
  intros Hz forward z y x_hat y_hat z_hat.
  destruct (estimate_orthonormal_basis_non_degenerate c f l zero3 Hz)
    as (He & Hx & _ & Hxc & Hyy & Hzz & Hyz).
  fold forward z y in He, Hx, Hxc, Hyy, Hzz, Hyz. fold y_hat z_hat in He, Hxc, Hyy, Hzz, Hyz.
  rewrite Hx in He. fold x_hat in He. rewrite Hx in Hxc. fold x_hat in Hxc.
  assert (orthonormal_within 0 x_hat y_hat z_hat) as Hon.
  { rewrite Hxc. apply orthonormal_from_y_z; [lra|done..]. }
  split; [|split; [done|by apply basis_assertions_exact]].
  by rewrite estimate_orthonormal_basis_fin_any_up.
Qed.




(** *** What the basis depends on *)












(** *** Missing coordinates *)

Lemma has_nan_false_fin (v : vec3) : has_nan v = false → ∃ r, v = fin3 r.
Proof.
  destruct v as [[[|a] [|b]] [|c]]; try discriminate. intros _. by exists (a, b, c).
Qed.

Lemma has_nan_fin3 a : has_nan (fin3 a) = false.
Proof. by destruct a as [[??]?]. Qed.

Lemma has_nan_vsub (p q : vec3) : has_nan (vsub p q) = has_nan p || has_nan q.
Proof.
  by destruct p as [[[|p0] [|p1]] [|p2]], q as [[[|q0] [|q1]] [|q2]].
Qed.

Lemma has_nan_cross_l (p q : vec3) : has_nan p = true → has_nan (cross p q) = true.
Proof.
  by destruct p as [[[|p0] [|p1]] [|p2]], q as [[[|q0] [|q1]] [|q2]].
Qed.

Lemma has_nan_cross_r (p q : vec3) : has_nan q = true → has_nan (cross p q) = true.
Proof.
  by destruct p as [[[|p0] [|p1]] [|p2]], q as [[[|q0] [|q1]] [|q2]].
Qed.

(** A vector with a missing coordinate has norm NaN, and divided by its
    norm it has no coordinate left. *)
Lemma vdiv_norm_nan (p : vec3) : has_nan p = true → vdiv p (norm p) = nan3.
Proof. by destruct p as [[[|p0] [|p1]] [|p2]]. Qed.

Lemma estimate_orthonormal_basis_nan (c f l up : vec3) :
  has_nan c || has_nan f || has_nan l = true →
  estimate_orthonormal_basis (array1 c) (array1 f) (array1 l) (array1 up)
  = Ok (nan3, nan3, nan3).
Proof.
  intros Hn. unfold estimate_orthonormal_basis.
  rewrite !shape_array1, !to_vec3_array1.
  rewrite !bool_decide_eq_false_2 by (intros H; by apply H). simpl orb. cbv zeta.
  assert (has_nan (cross (vsub f c) (vsub l c)) = true) as Hz.
  { destruct (has_nan (vsub f c)) eqn:Hf; [by apply has_nan_cross_l|].
    apply has_nan_cross_r. rewrite has_nan_vsub in Hf |- *.
    destruct (has_nan c), (has_nan f), (has_nan l); done. }
  assert (has_nan (cross (cross (vsub f c) (vsub l c)) (vsub f c)) = true) as Hy
    by (by apply has_nan_cross_l).
  assert (has_nan (cross (cross (cross (vsub f c) (vsub l c)) (vsub f c))
                     (cross (vsub f c) (vsub l c))) = true) as Hx
    by (by apply has_nan_cross_l).
  by rewrite !vdiv_norm_nan.
Qed.



End EstimatorMore.

(** * More on transform_points *)

Section TransformMore.

Local Open Scope R_scope.

Implicit Types a b c f l u v w x y z p q : rvec.

(** *** Missing coordinates *)

Lemma has_nan_vadd_l (p t : vec3) : has_nan p = true → has_nan (vadd p t) = true.
Proof.
  by destruct p as [[[|p0] [|p1]] [|p2]], t as [[[|t0] [|t1]] [|t2]].
Qed.

Lemma dot_nan_l (p v : vec3) : has_nan p = true → dot p v = NaN.
Proof.
  by destruct p as [[[|p0] [|p1]] [|p2]], v as [[[|v0] [|v1]] [|v2]].
Qed.

Lemma vecmat_nan (p : vec3) (M : mat3) : has_nan p = true → vecmat p M = nan3.
Proof.
  intros Hp. destruct M as [[[[a0 a1] a2] [[b0 b1] b2]] [[c0 c1] c2]].
  unfold vecmat. simpl transpose. cbv iota beta. by rewrite !dot_nan_l.
Qed.

(** A point with one missing coordinate comes out of the transform with
    all three missing, whatever the translation and the matrix: the
    matrix product mixes the coordinates. *)
Theorem transform_points_spreads_nan (points : list vec3) (translation_vector : vec3)
    (rotation_matrix : mat3) (k : nat) (p : vec3) :
  points !! k = Some p →
  has_nan p = true →
  transform_points points translation_vector rotation_matrix !! k = Some nan3.
Proof.
  intros Hk Hp. unfold transform_points, rotate_points, translate_points.
  rewrite !list_lookup_fmap, Hk. simpl. f_equal.
  apply vecmat_nan. by apply has_nan_vadd_l.
Qed.

Lemma transform_points_spreads_nan_witness :
  transform_points [fin3 (1, 2, 3); (Fin 1, NaN, Fin 3)] (fin3 (0, 0, 0))
    (fin3 (1, 0, 0), fin3 (0, 1, 0), fin3 (0, 0, 1)) !! 1%nat
  = Some nan3.
Proof.
  apply (transform_points_spreads_nan [fin3 (1, 2, 3); (Fin 1, NaN, Fin 3)]
           (fin3 (0, 0, 0)) (fin3 (1, 0, 0), fin3 (0, 1, 0), fin3 (0, 0, 1))
           1%nat (Fin 1, NaN, Fin 3)); reflexivity.
Defined.

(** *** The transform on finite points *)










(** *** Undoing the transform *)






(** *** Where the reference points land *)












(** *** Moving the whole capture *)




End TransformMore.

(** * More on put_skeleton_on_ground *)

Section GroundMore.

Local Open Scope R_scope.

Variable get_low_velocity_frame : list (string * Trajectory.t) → result nat.

Implicit Types (h : heap) (kt : gmap string loc).

(** *** How the function fails *)

(** A ground-contact key that the dict does not have is a KeyError,
    raised before the low-velocity frame is asked for and with the store
    untouched. *)
Theorem put_skeleton_on_ground_missing_key h kt :
  kt !! BodyKeypoints.RIGHT_HEEL = None
  ∨ kt !! BodyKeypoints.LEFT_HEEL = None
  ∨ kt !! BodyKeypoints.RIGHT_HALLUX_TIP = None
  ∨ kt !! BodyKeypoints.LEFT_HALLUX_TIP = None →
  put_skeleton_on_ground get_low_velocity_frame h kt = (h, Raise KeyError).
Proof.
  intros Hmiss. apply put_skeleton_on_ground_reference_raises.
  unfold reference_basis, reference_points, getitem.
  destruct (kt !! BodyKeypoints.RIGHT_HEEL) as [rh|]; [simpl|done].
  destruct (kt !! BodyKeypoints.LEFT_HEEL) as [lh|]; [simpl|done].
  destruct (kt !! BodyKeypoints.RIGHT_HALLUX_TIP) as [rt|]; [simpl|done].
  destruct (kt !! BodyKeypoints.LEFT_HALLUX_TIP) as [lt|]; [simpl|done].
  by destruct Hmiss as [?|[?|[?|?]]].
Qed.

(** With the four keys in the dict, an exception of
    [get_low_velocity_frame] is the exception of the call. *)
Theorem put_skeleton_on_ground_helper_raises h kt rh lh rt lt e :
  kt !! BodyKeypoints.RIGHT_HEEL = Some rh →
  kt !! BodyKeypoints.LEFT_HEEL = Some lh →
  kt !! BodyKeypoints.RIGHT_HALLUX_TIP = Some rt →
  kt !! BodyKeypoints.LEFT_HALLUX_TIP = Some lt →
  get_low_velocity_frame
    [(BodyKeypoints.RIGHT_HEEL, obj h rh); (BodyKeypoints.LEFT_HEEL, obj h lh);
     (BodyKeypoints.RIGHT_HALLUX_TIP, obj h rt); (BodyKeypoints.LEFT_HALLUX_TIP, obj h lt)]
  = Raise e →
  put_skeleton_on_ground get_low_velocity_frame h kt = (h, Raise e).
Proof.
  intros Hrh Hlh Hrt Hlt Hg. apply put_skeleton_on_ground_reference_raises.
  unfold reference_basis, reference_points, getitem.
  rewrite Hrh, Hlh, Hrt, Hlt. simpl. by rewrite Hg.
Qed.

(** With the four keys in the dict, a frame index past the end of one of
    the four ground-contact trajectories is an IndexError; so is every
    index when such a trajectory has no frame. *)
Theorem put_skeleton_on_ground_frame_out_of_range h kt rh lh rt lt good_frame :
  kt !! BodyKeypoints.RIGHT_HEEL = Some rh →
  kt !! BodyKeypoints.LEFT_HEEL = Some lh →
  kt !! BodyKeypoints.RIGHT_HALLUX_TIP = Some rt →
  kt !! BodyKeypoints.LEFT_HALLUX_TIP = Some lt →
  get_low_velocity_frame
    [(BodyKeypoints.RIGHT_HEEL, obj h rh); (BodyKeypoints.LEFT_HEEL, obj h lh);
     (BodyKeypoints.RIGHT_HALLUX_TIP, obj h rt); (BodyKeypoints.LEFT_HALLUX_TIP, obj h lt)]
  = Ok good_frame →
  (length (Trajectory.trajectory_data (obj h rh)) ≤ good_frame
   ∨ length (Trajectory.trajectory_data (obj h lh)) ≤ good_frame
   ∨ length (Trajectory.trajectory_data (obj h rt)) ≤ good_frame
   ∨ length (Trajectory.trajectory_data (obj h lt)) ≤ good_frame)%nat →
  put_skeleton_on_ground get_low_velocity_frame h kt = (h, Raise IndexError).
Proof.
  intros Hrh Hlh Hrt Hlt Hg Hlen. apply put_skeleton_on_ground_reference_raises.
  unfold reference_basis, reference_points, getitem, row.
  rewrite Hrh, Hlh, Hrt, Hlt. simpl. rewrite Hg. simpl.
  destruct (Trajectory.trajectory_data (obj h rh) !! good_frame) eqn:E1; [simpl|done].
  destruct (Trajectory.trajectory_data (obj h lh) !! good_frame) eqn:E2; [simpl|done].
  destruct (Trajectory.trajectory_data (obj h rt) !! good_frame) eqn:E3; [simpl|done].
  destruct (Trajectory.trajectory_data (obj h lt) !! good_frame) eqn:E4; [simpl|done].
  apply lookup_lt_Some in E1, E2, E3, E4. lia.
Qed.

(** The skull reference is read last: with the four ground-contact
    points in place at the good frame, a dict without the skull key is a
    KeyError, and a skull trajectory that ends before the good frame is
    an IndexError. *)
Theorem put_skeleton_on_ground_skull h kt rh lh rt lt good_frame :
  kt !! BodyKeypoints.RIGHT_HEEL = Some rh →
  kt !! BodyKeypoints.LEFT_HEEL = Some lh →
  kt !! BodyKeypoints.RIGHT_HALLUX_TIP = Some rt →
  kt !! BodyKeypoints.LEFT_HALLUX_TIP = Some lt →
  get_low_velocity_frame
    [(BodyKeypoints.RIGHT_HEEL, obj h rh); (BodyKeypoints.LEFT_HEEL, obj h lh);
     (BodyKeypoints.RIGHT_HALLUX_TIP, obj h rt); (BodyKeypoints.LEFT_HALLUX_TIP, obj h lt)]
  = Ok good_frame →
  (good_frame < length (Trajectory.trajectory_data (obj h rh))
   ∧ good_frame < length (Trajectory.trajectory_data (obj h lh))
   ∧ good_frame < length (Trajectory.trajectory_data (obj h rt))
   ∧ good_frame < length (Trajectory.trajectory_data (obj h lt)))%nat →
  (kt !! BodyKeypoints.SKULL_ORIGIN_FORAMEN_MAGNUM = None →
   put_skeleton_on_ground get_low_velocity_frame h kt = (h, Raise KeyError))
  ∧ (∀ skull,
       kt !! BodyKeypoints.SKULL_ORIGIN_FORAMEN_MAGNUM = Some skull →
       (length (Trajectory.trajectory_data (obj h skull)) ≤ good_frame)%nat →
       put_skeleton_on_ground get_low_velocity_frame h kt = (h, Raise IndexError)).
Proof.
  intros Hrh Hlh Hrt Hlt Hg (L1 & L2 & L3 & L4).
  apply lookup_lt_is_Some_2 in L1 as [p1 E1], L2 as [p2 E2], L3 as [p3 E3],
    L4 as [p4 E4].
  split.
  - intros Hsk. apply put_skeleton_on_ground_reference_raises.
    unfold reference_basis, reference_points, getitem, row.
    rewrite Hrh, Hlh, Hrt, Hlt. simpl. rewrite Hg. simpl.
    rewrite E1, E2, E3, E4. simpl. by rewrite Hsk.
  - intros skull Hsk Hlen. apply put_skeleton_on_ground_reference_raises.
    unfold reference_basis, reference_points, getitem, row.
    rewrite Hrh, Hlh, Hrt, Hlt. simpl. rewrite Hg. simpl.
    rewrite E1, E2, E3, E4. simpl. rewrite Hsk. simpl.
    by rewrite (lookup_ge_None_2 _ _ Hlen).
Qed.

End GroundMore.

Lemma put_skeleton_on_ground_missing_key_witness :
  put_skeleton_on_ground Sample.get_low_velocity_frame Sample.standing
    (delete BodyKeypoints.LEFT_HEEL Sample.keypoint_trajectories)
  = (Sample.standing, Raise KeyError).
Proof.
  apply (put_skeleton_on_ground_missing_key Sample.get_low_velocity_frame Sample.standing
           (delete BodyKeypoints.LEFT_HEEL Sample.keypoint_trajectories)).
  right. left. by vm_compute.
Defined.

Lemma put_skeleton_on_ground_helper_raises_witness :
  put_skeleton_on_ground (λ _, Raise ValueError) Sample.standing
    Sample.keypoint_trajectories
  = (Sample.standing, Raise ValueError).
Proof.
  apply (put_skeleton_on_ground_helper_raises (λ _, Raise ValueError) Sample.standing
           Sample.keypoint_trajectories 0%nat 1%nat 2%nat 3%nat ValueError);
    first [by vm_compute | reflexivity].
Defined.

Lemma put_skeleton_on_ground_frame_out_of_range_witness :
  put_skeleton_on_ground (λ _, Ok 1%nat) Sample.standing Sample.keypoint_trajectories
  = (Sample.standing, Raise IndexError).
Proof.
  apply (put_skeleton_on_ground_frame_out_of_range (λ _, Ok 1%nat) Sample.standing
           Sample.keypoint_trajectories 0%nat 1%nat 2%nat 3%nat 1%nat);
    try (by vm_compute); try reflexivity.
  left. simpl. lia.
Defined.

Lemma put_skeleton_on_ground_skull_witness :
  put_skeleton_on_ground Sample.get_low_velocity_frame Sample.standing
    (delete BodyKeypoints.SKULL_ORIGIN_FORAMEN_MAGNUM Sample.keypoint_trajectories)
  = (Sample.standing, Raise KeyError).
Proof.
  apply (proj1 (put_skeleton_on_ground_skull Sample.get_low_velocity_frame
                  Sample.standing
                  (delete BodyKeypoints.SKULL_ORIGIN_FORAMEN_MAGNUM
                     Sample.keypoint_trajectories)
                  0%nat 1%nat 2%nat 3%nat 0%nat
                  ltac:(by vm_compute) ltac:(by vm_compute) ltac:(by vm_compute)
                  ltac:(by vm_compute) eq_refl
                  ltac:(simpl; lia))).
  by vm_compute.
Defined.

(** *** When the function returns, and what it raises *)

Section GroundOutcome.

Local Open Scope R_scope.

Variable get_low_velocity_frame : list (string * Trajectory.t) → result nat.

Implicit Types (h : heap) (kt : gmap string loc).

Lemma reference_points_raises h kt e :
  reference_points get_low_velocity_frame h kt = Raise e →
  e = KeyError ∨ e = IndexError
  ∨ ∃ trajectories, get_low_velocity_frame trajectories = Raise e.
Proof.
  unfold reference_points, getitem, row.
  destruct (kt !! BodyKeypoints.RIGHT_HEEL) as [rh|]; [simpl|intros [= <-]; auto].
  destruct (kt !! BodyKeypoints.LEFT_HEEL) as [lh|]; [simpl|intros [= <-]; auto].
  destruct (kt !! BodyKeypoints.RIGHT_HALLUX_TIP) as [rt|]; [simpl|intros [= <-]; auto].
  destruct (kt !! BodyKeypoints.LEFT_HALLUX_TIP) as [lt|]; [simpl|intros [= <-]; auto].
  destruct (get_low_velocity_frame _) as [good_frame|e'] eqn:Hg;
    [simpl|intros [= <-]; eauto].
  destruct (Trajectory.trajectory_data (obj h rh) !! good_frame);
    [simpl|intros [= <-]; auto].
  destruct (Trajectory.trajectory_data (obj h lh) !! good_frame);
    [simpl|intros [= <-]; auto].
  destruct (Trajectory.trajectory_data (obj h rt) !! good_frame);
    [simpl|intros [= <-]; auto].
  destruct (Trajectory.trajectory_data (obj h lt) !! good_frame);
    [simpl|intros [= <-]; auto].
  destruct (kt !! BodyKeypoints.SKULL_ORIGIN_FORAMEN_MAGNUM) as [sk|];
    [simpl|intros [= <-]; auto].
  destruct (Trajectory.trajectory_data (obj h sk) !! good_frame);
    [simpl|intros [= <-]; auto].
  discriminate.
Qed.

(** The arrays handed to the estimator have shape (3,): it returns. *)
Lemma estimate_orthonormal_basis_array1_returns (c f l up : vec3) :
  ∃ basis,
    estimate_orthonormal_basis (array1 c) (array1 f) (array1 l) (array1 up) = Ok basis.
Proof.
  unfold estimate_orthonormal_basis. rewrite !shape_array1.
  rewrite !bool_decide_eq_false_2 by (intros H; by apply H). simpl orb. cbv zeta.
  by eexists.
Qed.

Lemma reference_basis_raises h kt e :
  reference_basis get_low_velocity_frame h kt = Raise e →
  reference_points get_low_velocity_frame h kt = Raise e.
Proof.
  unfold reference_basis. intros H.
  destruct (reference_points get_low_velocity_frame h kt)
    as [[[[c xf] yl] zu]|e'] eqn:Hp; simpl in H; [|by injection H as ->].
  destruct (estimate_orthonormal_basis_array1_returns c xf yl zu) as [[[x y] z] He].
  rewrite He in H. simpl in H. discriminate.
Qed.

(** The estimate that passes the assertions comes from finite,
    non-degenerate reference points, and is exactly orthonormal. *)
Lemma passing_basis_is_exact (c f l up x y z : vec3) :
  estimate_orthonormal_basis (array1 c) (array1 f) (array1 l) (array1 up)
  = Ok (x, y, z) →
  basis_assertions x y z = Ok () →
  ∃ rc rf rl rx ry rz : rvec,
    c = fin3 rc ∧ f = fin3 rf ∧ l = fin3 rl ∧ non_degenerate rc rf rl
    ∧ x = fin3 rx ∧ y = fin3 ry ∧ z = fin3 rz ∧ orthonormal_within 0 rx ry rz.
Proof.
  intros He Hok.
  destruct (has_nan c || has_nan f || has_nan l) eqn:Hn.
  { rewrite estimate_orthonormal_basis_nan in He by done.
    injection He as <- <- <-. by rewrite basis_assertions_nan in Hok. }
  apply orb_false_iff in Hn as [Hn Hl]. apply orb_false_iff in Hn as [Hc Hf].
  apply has_nan_false_fin in Hc as [rc ->], Hf as [rf ->], Hl as [rl ->].
  destruct (rvec_eq_dec (rcross (rsub rf rc) (rsub rl rc)) zero3) as [Hz|Hz].
  { rewrite estimate_orthonormal_basis_fin_any_up in He.
    rewrite estimate_orthonormal_basis_degenerate in He by done.
    injection He as <- <- <-. by rewrite basis_assertions_nan in Hok. }
  destruct (estimate_orthonormal_basis_explicit rc rf rl up Hz) as (He' & Hon & _).
  rewrite He' in He. injection He as <- <- <-.
  eexists rc, rf, rl, _, _, _. do 3 (split; [done|]).
  split; [by apply non_degenerate_cross|]. do 3 (split; [done|]). exact Hon.
Qed.


(** A failed call leaves the store as it was, and raises KeyError (a
    key is missing), IndexError (the frame is out of range),
    AssertionError (the basis fails a check), or what
    [get_low_velocity_frame] raised; the ValueError of the shape test
    cannot occur. *)
Theorem put_skeleton_on_ground_exceptions h kt h' e :
  heap_wf h kt →
  put_skeleton_on_ground get_low_velocity_frame h kt = (h', Raise e) →
  h' = h
  ∧ (e = KeyError ∨ e = IndexError ∨ e = AssertionError
     ∨ ∃ trajectories, get_low_velocity_frame trajectories = Raise e).
Proof.
  intros Hwf Hrun.
  destruct (reference_basis get_low_velocity_frame h kt)
    as [[center [[x y] z]]|e0] eqn:Href.
  - destruct (basis_assertions_outcomes x y z) as [Hok|Hr].
    + destruct (put_skeleton_on_ground_success _ h kt center x y z Hwf Href Hok)
        as (h2 & out & Hrun2 & _). congruence.
    + rewrite (put_skeleton_on_ground_assertion_raises _ h kt center x y z Href) in Hrun
        by congruence.
      injection Hrun as <- <-. auto.
  - rewrite (put_skeleton_on_ground_reference_raises _ h kt e0 Href) in Hrun.
    injection Hrun as <- <-. split; [done|].
    apply reference_basis_raises, reference_points_raises in Href.
    destruct Href as [?|[?|?]]; auto.
Qed.

End GroundOutcome.


Lemma put_skeleton_on_ground_exceptions_witness :
  Sample.collapsed = Sample.collapsed
  ∧ (AssertionError = KeyError ∨ AssertionError = IndexError
     ∨ AssertionError = AssertionError
     ∨ ∃ trajectories, Sample.get_low_velocity_frame trajectories = Raise AssertionError).
Proof.
  apply (put_skeleton_on_ground_exceptions Sample.get_low_velocity_frame
           Sample.collapsed Sample.keypoint_trajectories Sample.collapsed AssertionError
           (sample_heap_wf _ _ _ _ _ _)).
  eapply put_skeleton_on_ground_assertion_raises.
  - apply sample_collapsed_reference_basis.
  - discriminate.
Defined.

(** *** What the returned trajectories hold *)

Section GroundResult.

Local Open Scope R_scope.

Variable get_low_velocity_frame : list (string * Trajectory.t) → result nat.

Implicit Types (h : heap) (kt : gmap string loc).

(** A successful call, in full: a finite center, an exactly orthonormal
    matrix, and every point of every trajectory mapped by the rigid map
    they define. *)
Lemma put_skeleton_on_ground_exact h kt h' out :
  heap_wf h kt →
  put_skeleton_on_ground get_low_velocity_frame h kt = (h', Ok out) →
  ∃ rc rx ry rz : rvec,
    orthonormal_within 0 rx ry rz
    ∧ ∀ key frame p,
        point_at h kt key frame = Some p →
        point_at h' out key frame
        = Some (rigid_map (fin3 rc) (fin3 rx, fin3 ry, fin3 rz) p).
Proof.
  intros Hwf Hrun.
  destruct (put_skeleton_on_ground_cases get_low_velocity_frame h kt)
    as [[e He] | (center & x & y & z & Href & Hok)]; [congruence|].
  destruct (put_skeleton_on_ground_success _ h kt center x y z Hwf Href Hok)
    as (h2 & out2 & Hrun2 & _ & _ & Hcopy).
  assert (h2 = h' ∧ out2 = out) as [-> ->] by (split; congruence).
  destruct (reference_basis_inv _ _ _ _ _ Href) as (xf & yl & zu & Hpts & Hest).
  destruct (passing_basis_is_exact _ _ _ _ _ _ _ Hest Hok)
    as (rc & rf & rl & rx & ry & rz & -> & _ & _ & _ & -> & -> & -> & Hon).
  exists rc, rx, ry, rz. split; [done|].
  intros key frame p. unfold point_at.
  destruct (kt !! key) as [l|] eqn:Hl; [|done].
  destruct (Hcopy key l Hl) as (l' & Hl' & _ & _ & Hdata).
  unfold loc in *. rewrite Hl'. simpl.
  rewrite Hdata, transform_points_rigid_map, list_lookup_fmap.
  by intros ->.
Qed.



(** A point of the input with a missing coordinate is a point with no
    coordinate in the output. *)
Theorem put_skeleton_on_ground_spreads_nan h kt h' out (key : string) (frame : nat)
    (p : vec3) :
  heap_wf h kt →
  put_skeleton_on_ground get_low_velocity_frame h kt = (h', Ok out) →
  point_at h kt key frame = Some p →
  has_nan p = true →
  point_at h' out key frame = Some nan3.
Proof.
  intros Hwf Hrun Hp Hnan.
  destruct (put_skeleton_on_ground_exact h kt h' out Hwf Hrun)
    as (rc & rx & ry & rz & Hon & Hmap).
  rewrite (Hmap _ _ _ Hp). f_equal. unfold rigid_map.
  apply vecmat_nan. rewrite has_nan_vsub. by rewrite Hnan.
Qed.

(** The returned dict is the deep copy of the input dict: two keys refer
    to one object in the output exactly when they do in the input. *)
Theorem put_skeleton_on_ground_keeps_sharing h kt h' out (key1 key2 : string) (l1 l2 : loc) :
  heap_wf h kt →
  put_skeleton_on_ground get_low_velocity_frame h kt = (h', Ok out) →
  kt !! key1 = Some l1 →
  kt !! key2 = Some l2 →
  ∃ l1' l2',
    out !! key1 = Some l1' ∧ out !! key2 = Some l2' ∧ (l1' = l2' ↔ l1 = l2).
Proof.
  intros Hwf Hrun H1 H2.
  assert (out = (deepcopy h kt).2) as ->.
  { unfold put_skeleton_on_ground in Hrun.
    destruct (_ ≫= _) as [[center R]|] in Hrun; [|discriminate].
    destruct (deepcopy h kt) as [h1 out1]. simpl.
    destruct (transform_loop _ _ _ _ _ _) as [h2 [[]|]] in Hrun; congruence. }
  destruct (deepcopy_spec h kt Hwf) as (memo & (_ & _ & _ & Hinj) & Hout & Hin).
  destruct (Hin key1 l1 H1) as [l1' Hm1]. destruct (Hin key2 l2 H2) as [l2' Hm2].
  exists l1', l2'. rewrite !Hout, H1, H2. simpl. do 2 (split; [done|]).
  split; [intros <-; by eapply Hinj | intros <-; congruence].
Qed.

End GroundResult.


Lemma put_skeleton_on_ground_spreads_nan_witness :
  ∃ (h' : heap) (out : gmap string loc), point_at h' out "nose" 0%nat = Some nan3.
Proof.
  destruct sample_standing_returns as (h' & out & Hrun).
  exists h', out.
  apply (put_skeleton_on_ground_spreads_nan Sample.get_low_velocity_frame
           Sample.standing Sample.keypoint_trajectories h' out "nose" 0%nat
           (NaN, Fin 1, Fin 2) (sample_heap_wf _ _ _ _ _ _) Hrun);
    [by vm_compute | reflexivity].
Defined.

Lemma put_skeleton_on_ground_keeps_sharing_witness :
  ∃ (out : gmap string loc) (l1' l2' : loc),
    out !! BodyKeypoints.RIGHT_HEEL = Some l1'
    ∧ out !! BodyKeypoints.LEFT_HEEL = Some l2'
    ∧ (l1' = l2' ↔ 0%nat = 1%nat).
Proof.
  destruct sample_standing_returns as (h' & out & Hrun).
  destruct (put_skeleton_on_ground_keeps_sharing Sample.get_low_velocity_frame
              Sample.standing Sample.keypoint_trajectories h' out
              BodyKeypoints.RIGHT_HEEL BodyKeypoints.LEFT_HEEL 0%nat 1%nat
              (sample_heap_wf _ _ _ _ _ _) Hrun)
    as (l1' & l2' & H1 & H2 & Hiff); [by vm_compute..|].
  by exists out, l1', l2'.
Defined.

(** * More on the skeleton model *)

Section SkeletonMore.

Import AxialBodyKeypoints.

(** *** SimpleRigidBodyABC *)

(** Whatever the two arguments are, a simple rigid body is constructed
    exactly when both are Keypoint instances and they differ; every
    other construction, among them each one with an argument that is no
    Keypoint, raises ValueError. *)
Theorem SimpleRigidBodyABC_new_spec (a1 a2 : pyarg) :
  (SimpleRigidBodyABC.new a1 a2 = Ok (SimpleRigidBodyABC.Build a1 a2)
   ↔ ∃ k1 k2, a1 = IsKeypoint k1 ∧ a2 = IsKeypoint k2 ∧ k1 ≠ k2)
  ∧ (SimpleRigidBodyABC.new a1 a2 = Raise ValueError
     ↔ ¬ ∃ k1 k2, a1 = IsKeypoint k1 ∧ a2 = IsKeypoint k2 ∧ k1 ≠ k2)
  ∧ (isinstance_Keypoint a1 = false ∨ isinstance_Keypoint a2 = false →
     SimpleRigidBodyABC.new a1 a2 = Raise ValueError).
Proof.
  unfold SimpleRigidBodyABC.new, dataclass_init, SimpleRigidBodyABC.__post_init__.
  destruct a1 as [k1|r1], a2 as [k2|r2]; simpl.
  - case_bool_decide as Heq; simpl.
    + injection Heq as ->. split; [|split].
      * split; [done|]. by intros (? & ? & [= <-] & [= <-] & ?).
      * split; [|done]. by intros _ (? & ? & [= <-] & [= <-] & ?).
      * by intros [?|?].
    + split; [|split].
      * split; [|done]. intros _. exists k1, k2. repeat split. congruence.
      * split; [done|]. intros H. exfalso. apply H. exists k1, k2.
        repeat split. congruence.
      * by intros [?|?].
  - split; [|split]; [split; [done|by intros (? & ? & _ & [=] & _)]
                     |split; [by intros _ (? & ? & _ & [=] & _)|done]|done].
  - split; [|split]; [split; [done|by intros (? & ? & [=] & _)]
                     |split; [by intros _ (? & ? & [=] & _)|done]|done].
  - split; [|split]; [split; [done|by intros (? & ? & [=] & _)]
                     |split; [by intros _ (? & ? & [=] & _)|done]|done].
Qed.

Lemma SimpleRigidBodyABC_new_spec_witness :
  SimpleRigidBodyABC.new (IsKeypoint NECK_C7) (NotKeypoint "'NECK_C1'") = Raise ValueError.
Proof.
  apply (proj2 (proj2 (SimpleRigidBodyABC_new_spec (IsKeypoint NECK_C7)
                         (NotKeypoint "'NECK_C1'")))).
  right. reflexivity.
Defined.

(** *** LinkageABC *)

Lemma LinkageABC_children_list_raises (parent : RigidBody) (bodies : list RigidBody)
    (k : Keypoint.t) (ks : list Keypoint.t) :
  LinkageABC.new parent (ObjList bodies) (k :: ks) = Raise ValueError.
Proof.
  unfold LinkageABC.new, dataclass_init, LinkageABC.__post_init__.
  cbn [for_each LinkageABC.parent LinkageABC.children LinkageABC.linked_keypoints].
  destruct (LinkageABC_check_outcomes (ObjBody parent) k) as [-> | ->]; [|done].
  cbn [mbind result_bind].
  destruct (for_each_raises_only ks
              (λ keypoint, LinkageABC.check (ObjBody parent) keypoint) ValueError
              (LinkageABC_check_outcomes _)) as [-> | ->]; done.
Qed.

(** All the constructions of a Linkage that succeed: those without a
    linked keypoint, whatever the bodies are, and those whose [children]
    is one rigid body, when every linked keypoint is a structural member
    of the parent and of that body. *)
Theorem LinkageABC_new_spec (parent : RigidBody) (children : pyobject)
    (linked_keypoints : list Keypoint.t) :
  LinkageABC.new parent children linked_keypoints
  = Ok (LinkageABC.Build parent children linked_keypoints)
  ↔ linked_keypoints = []
    ∨ ∃ child, children = ObjBody child
               ∧ ∀ k, k ∈ linked_keypoints →
                   structural_member k parent = true
                   ∧ structural_member k child = true.
Proof.
  destruct linked_keypoints as [|k0 ks].
  { split; [by left|]. intros _. by destruct children. }
  destruct children as [child|bodies].
  - rewrite LinkageABC_single_child. split.
    + intros H. right. by exists child.
    + intros [?|(child' & [= <-] & H)]; done.
  - rewrite LinkageABC_children_list_raises.
    split; [done|]. intros [?|(child' & ? & _)]; done.
Qed.

Lemma LinkageABC_new_spec_witness :
  LinkageABC.new
    (Simple (SimpleRigidBodyABC.Build (IsKeypoint NECK_C7) (IsKeypoint NECK_C1)))
    (ObjBody (Simple (SimpleRigidBodyABC.Build (IsKeypoint NECK_C1)
                        (IsKeypoint HEAD_CENTER))))
    [NECK_C1]
  = Ok (LinkageABC.Build
          (Simple (SimpleRigidBodyABC.Build (IsKeypoint NECK_C7) (IsKeypoint NECK_C1)))
          (ObjBody (Simple (SimpleRigidBodyABC.Build (IsKeypoint NECK_C1)
                              (IsKeypoint HEAD_CENTER))))
          [NECK_C1])
  ∧ LinkageABC.new (Plain HIPS_CENTER) (ObjList []) []
    = Ok (LinkageABC.Build (Plain HIPS_CENTER) (ObjList []) []).
Proof.
  split.
  - apply (proj2 (LinkageABC_new_spec _ _ _)). right. eexists. split; [reflexivity|].
    intros k Hk. apply list_elem_of_singleton in Hk as ->. by split.
  - apply (proj2 (LinkageABC_new_spec _ _ _)). by left.
Defined.

(** *** ChainABC *)


(** *** KeypointMapping.__post_init__ on an object that has the attribute *)

(** Lines 200-202: a dict of source keypoints is replaced by the list of
    its keys, and the next line asks that list for [values()]: the dict
    form ends in AttributeError, whatever the dict and the weights. *)
Theorem KeypointMapping_dict_raises (self : gmap string pyval) (d : list (pyval * pyval)) :
  self !! "source_keypoints" = Some (PDict d) →
  KeypointMapping.__post_init__ self = Raise AttributeError.
Proof.
  intros Hsk. unfold KeypointMapping.__post_init__, KeypointMapping.getattr.
  rewrite Hsk. simpl. unfold KeypointMapping.setattr.
  by rewrite lookup_insert_eq.
Qed.

Lemma KeypointMapping_dict_raises_witness :
  KeypointMapping.__post_init__
    (<["source_keypoints" := PDict [(PStr "left_hip", PFloat (1 # 2));
                                    (PStr "right_hip", PFloat (1 # 2))]]>
       (<["weights" := PNone]> ∅))
  = Raise AttributeError.
Proof.
  apply (KeypointMapping_dict_raises _
           [(PStr "left_hip", PFloat (1 # 2)); (PStr "right_hip", PFloat (1 # 2))]).
  by rewrite lookup_insert_eq.
Defined.

(** Lines 204-208: with a list of source keypoints, a list of weights of
    another length is a ValueError, whatever the weights are; and the
    empty list of source keypoints with no weights is a
    ZeroDivisionError, from the default [1 / len(...)]. *)
Theorem KeypointMapping_list_errors (self : gmap string pyval)
    (source_keypoints weights : list pyval) :
  self !! "source_keypoints" = Some (PList source_keypoints) →
  (self !! "weights" = Some (PList weights) →
   length source_keypoints ≠ length weights →
   KeypointMapping.__post_init__ self = Raise ValueError)
  ∧ (self !! "weights" = Some PNone →
     source_keypoints = [] →
     KeypointMapping.__post_init__ self = Raise ZeroDivisionError).
Proof.
  intros Hsk. split.
  - intros Hw Hlen. unfold KeypointMapping.__post_init__, KeypointMapping.getattr.
    rewrite Hsk. simpl. rewrite Hw. simpl. rewrite Hsk. simpl. rewrite Hw. simpl.
    by rewrite bool_decide_eq_false_2.
  - intros Hw ->. unfold KeypointMapping.__post_init__, KeypointMapping.getattr.
    rewrite Hsk. simpl. rewrite Hw. simpl. by rewrite Hsk.
Qed.

Lemma KeypointMapping_list_errors_witness :
  KeypointMapping.__post_init__
    (<["source_keypoints" := PList [PStr "left_hip"; PStr "right_hip"]]>
       (<["weights" := PList [PFloat 1]]> ∅))
  = Raise ValueError
  ∧ KeypointMapping.__post_init__
      (<["source_keypoints" := PList []]> (<["weights" := PNone]> ∅))
    = Raise ZeroDivisionError.
Proof.
  split.
  - apply (proj1 (KeypointMapping_list_errors _ [PStr "left_hip"; PStr "right_hip"]
                    [PFloat 1] (lookup_insert_eq _ _ _))).
    + by rewrite lookup_insert_ne, lookup_insert_eq.
    + simpl. lia.
  - apply (proj2 (KeypointMapping_list_errors _ [] [] (lookup_insert_eq _ _ _))).
    + by rewrite lookup_insert_ne, lookup_insert_eq.
    + reflexivity.
Defined.

(** *** GenericTrackedPoints.__post_init__ *)

Lemma shape_of_length_3 (s : list nat) :
  length s = 3%nat → ∃ a b c, s = [a; b; c].
Proof.
  destruct s as [|a [|b [|c [|d s]]]]; try discriminate. intros _. by exists a, b, c.
Qed.

(** The method ends normally exactly for an array of shape
    (frames, number of names, 3); for every other shape, of any rank, it
    raises ValueError.  After it, the two properties are the frame count
    and the number of names. *)
Theorem GenericTrackedPoints_post_init_spec {S C : Type}
    (self : GenericTrackedPoints.t S C) :
  let valid :=
    ∃ frames,
      shape (GenericTrackedPoints.trajectory_data self)
      = [frames; length (GenericTrackedPoints.trajectory_names self); 3%nat] in
  (GenericTrackedPoints.__post_init__ self = Ok () ↔ valid)
  ∧ (GenericTrackedPoints.__post_init__ self = Raise ValueError ↔ ¬ valid)
  ∧ (∀ frames,
       shape (GenericTrackedPoints.trajectory_data self)
       = [frames; length (GenericTrackedPoints.trajectory_names self); 3%nat] →
       GenericTrackedPoints.number_of_frames self = Ok frames
       ∧ GenericTrackedPoints.number_of_trajectories self
         = Ok (length (GenericTrackedPoints.trajectory_names self))).
Proof.
  intros valid. subst valid.
  unfold GenericTrackedPoints.__post_init__, GenericTrackedPoints.number_of_frames,
    GenericTrackedPoints.number_of_trajectories, GenericTrackedPoints.shape_item.
  split; [|split].
  3:{ intros frames ->. done. }
  - case_bool_decide as Hlen; simpl.
    + apply shape_of_length_3 in Hlen as (a & b & c & ->). simpl.
      case_bool_decide as Hc; simpl; [subst c|].
      * case_bool_decide as Hb; simpl; [subst b|].
        -- split; [|done]. intros _. by exists a.
        -- split; [done|]. intros [frames [= _ ?]]. done.
      * split; [done|]. intros [frames [= _ _ ?]]. done.
    + split; [done|]. intros [frames Hs]. by rewrite Hs in Hlen.
  - case_bool_decide as Hlen; simpl.
    + apply shape_of_length_3 in Hlen as (a & b & c & ->). simpl.
      case_bool_decide as Hc; simpl; [subst c|].
      * case_bool_decide as Hb; simpl; [subst b|].
        -- split; [done|]. intros H. exfalso. apply H. by exists a.
        -- split; [|done]. intros _ [frames [= _ ?]]. done.
      * split; [|done]. intros _ [frames [= _ _ ?]]. done.
    + split; [|done]. intros _ [frames Hs]. by rewrite Hs in Hlen.
Qed.

Lemma GenericTrackedPoints_post_init_spec_witness :
  GenericTrackedPoints.__post_init__
    (GenericTrackedPoints.Build
       {| shape := [0%nat; 2%nat; 3%nat]; data := [] |}
       ["nose"; "left_eye"] ["frame"; "trajectory"; "xyz"] "mediapipe" "body")
  = Ok ()
  ∧ GenericTrackedPoints.__post_init__
      (GenericTrackedPoints.Build
         {| shape := [2%nat; 3%nat]; data := replicate 6 NaN |}
         ["nose"; "left_eye"] ["frame"; "trajectory"; "xyz"] "mediapipe" "body")
    = Raise ValueError.
Proof.
  split.
  - apply (proj1 (GenericTrackedPoints_post_init_spec _)). by exists 0%nat.
  - apply (proj1 (proj2 (GenericTrackedPoints_post_init_spec _))).
    intros [frames Hs]. simpl in Hs. discriminate.
Defined.

End SkeletonMore.

(** * get_color_and_squish *)

Section Meshes.

Lemma prefix_spec (needle hay : string) :
  String.prefix needle hay = true ↔ ∃ after, hay = String.append needle after.
Proof.
  revert hay. induction needle as [|a needle IH]; intros [|b hay]; simpl.
  - split; [intros _; by exists EmptyString | done].
  - split; [intros _; by exists (String b hay) | done].
  - split; [done | intros [? [=]]].
  - destruct (Ascii.ascii_dec a b) as [->|Hne].
    + rewrite IH. split; intros [after H]; exists after.
      * simpl. by rewrite H.
      * simpl in H. by injection H.
    + split; [done|]. intros [after [= ? _]]. done.
Qed.

Lemma contains_spec (needle hay : string) :
  contains needle hay = true ↔ occurs_in needle hay.
Proof.
  unfold occurs_in. induction hay as [|c hay IH].
  - change (contains needle EmptyString)
      with (String.prefix needle EmptyString || false).
    rewrite orb_false_r, prefix_spec. split.
    + intros [after H]. by exists EmptyString, after.
    + intros ([|? before] & after & H); [by exists after | discriminate].
  - change (contains needle (String c hay))
      with (String.prefix needle (String c hay) || contains needle hay).
    rewrite orb_true_iff, prefix_spec, IH. split.
    + intros [[after H] | (before & after & H)].
      * by exists EmptyString, after.
      * exists (String c before), after. simpl. by rewrite H.
    + intros ([|c' before] & after & H).
      * left. by exists after.
      * right. simpl in H. injection H as _ H. by exists before, after.
Qed.

(** A segment whose name holds the right marker anywhere gets the right
    colour and the appendicular squish, also when it holds the left
    marker; one with the left marker only gets the left colour; only a
    name with neither gets the axial colour and the axial squish. *)
Theorem get_color_and_squish_sides (RightLeft_RIGHT RightLeft_LEFT axial_color : string)
    (segment_name : string) :
  let result :=
    get_color_and_squish RightLeft_RIGHT RightLeft_LEFT axial_color segment_name in
  (occurs_in RightLeft_RIGHT segment_name →
   result = (DEFAULT_RIGHT_SIDE_COLOR, DEFAULT_APPENDICULAR_RIGID_BODY_MESH_SQUISH))
  ∧ (¬ occurs_in RightLeft_RIGHT segment_name →
     occurs_in RightLeft_LEFT segment_name →
     result = (DEFAULT_LEFT_SIDE_COLOR, DEFAULT_APPENDICULAR_RIGID_BODY_MESH_SQUISH))
  ∧ (¬ occurs_in RightLeft_RIGHT segment_name →
     ¬ occurs_in RightLeft_LEFT segment_name →
     result = (axial_color, DEFAULT_AXIAL_RIGID_BODY_MESH_SQUISH)).
Proof.
  intros result. subst result. unfold get_color_and_squish.
  rewrite <- !contains_spec.
  destruct (contains RightLeft_RIGHT segment_name),
           (contains RightLeft_LEFT segment_name); simpl;
    repeat split; intros; congruence.
Qed.

Lemma get_color_and_squish_sides_witness :
  get_color_and_squish "right" "left" "#00AA88" "left_to_right_clavicle"
  = (DEFAULT_RIGHT_SIDE_COLOR, DEFAULT_APPENDICULAR_RIGID_BODY_MESH_SQUISH).
Proof.
  apply (proj1 (get_color_and_squish_sides "right" "left" "#00AA88"
                  "left_to_right_clavicle")).
  by exists "left_to_", "_clavicle".
Defined.

End Meshes.
